(** * fluvii: the consumers of [fluvii/consumer.py]

    A shallow embedding of the classes [Consumer] and
    [TransactionalConsumer], and the properties of the batch engine that
    follow from the code.

    Conventions of the embedding
    - A method is a function in the monad [M S A := S -> outcome A * S]:
      it takes the object it works on and gives back what the call
      returned or raised, with the object as the call left it.  What a
      method wrote before it raised stays written, as in Python.
    - Python dicts are [gmap]s.  The order in which a dict is iterated is
      the enumeration order of the map; nothing below depends on it.
    - Numbers of seconds (time stamps, durations, timeouts) are exact
      rationals [Q]; counts, partitions and offsets are integers [Z].
    - [if x:] on an optional number is Python's truth test: [None] and
      [0] are both false.
    - The collaborators (fetch client, wall clock, metrics manager,
      producer) are records that answer from a script and log the calls
      made to them.  Calls to [LOGGER] have no effect on any of this and
      are left out. *)

From Stdlib Require Import ZArith QArith Qround String List Bool Lia Lqa.
From stdpp Require Import gmap strings list fin_maps sorting.

Open Scope string_scope.
Open Scope Z_scope.

(** ** Exceptions *)

Inductive exn : Type :=
| NoMessageError
| ConsumeMessageError (text : string)
| FinishedTransactionBatch
| AttributeError (text : string)
| TypeError (text : string)
| ExternalError (text : string).

Inductive outcome (A : Type) : Type :=
| Returned (a : A)
| Raised (e : exn).
Arguments Returned {A} a.
Arguments Raised {A} e.

(** ** The monad of methods *)

Definition M (S A : Type) : Type := S -> outcome A * S.

Definition ret {S A} (a : A) : M S A := fun s => (Returned a, s).
Definition raise {S A} (e : exn) : M S A := fun s => (Raised e, s).
Definition bind {S A B} (c : M S A) (k : A -> M S B) : M S B :=
  fun s => match c s with
           | (Returned a, s') => k a s'
           | (Raised e, s') => (Raised e, s')
           end.
Definition gets {S A} (f : S -> A) : M S A := fun s => (Returned (f s), s).
Definition modify {S} (f : S -> S) : M S unit := fun s => (Returned tt, f s).

(** [try: body  except <the exceptions h answers>: h e] *)
Definition try_except {S A} (body : M S A) (h : exn -> option (M S A)) : M S A :=
  fun s => match body s with
           | (Returned a, s') => (Returned a, s')
           | (Raised e, s') =>
               match h e with
               | Some handler => handler s'
               | None => (Raised e, s')
               end
           end.

Declare Scope method_scope.
Delimit Scope method_scope with method.
Notation "x <- c ;; k" := (bind c (fun x => k))
  (at level 100, c at next level, right associativity) : method_scope.
Notation "c ;; k" := (bind c (fun _ => k))
  (at level 100, right associativity) : method_scope.
Open Scope method_scope.

(** [for x in l: body x] *)
Fixpoint for_each {S A} (l : list A) (body : A -> M S unit) : M S unit :=
  match l with
  | [] => ret tt
  | x :: l' => body x ;; for_each l' body
  end.

(** [if b: c] *)
Definition when {S} (b : bool) (c : M S unit) : M S unit :=
  if b then c else ret tt.

(** Run a method on the first or on the second object of a pair. *)
Definition on_fst {S T A} (c : M S A) : M (S * T) A :=
  fun st => let '(r, s') := c (fst st) in (r, (s', snd st)).
Definition on_snd {S T A} (c : M T A) : M (S * T) A :=
  fun st => let '(r, t') := c (snd st) in (r, (fst st, t')).

(** ** Python's built-ins *)

Module Py.

(** [bool(x)] for an optional integer *)
Definition truthy_Z (x : option Z) : bool :=
  match x with
  | Some z => negb (z =? 0)
  | None => false
  end.

(** [bool(x)] for an optional number of seconds *)
Definition truthy_Q (x : option Q) : bool :=
  match x with
  | Some q => negb (Qeq_bool q 0)
  | None => false
  end.

(** [x < y] on numbers of seconds *)
Definition ltb (x y : Q) : bool := negb (Qle_bool y x).

(** [round(x)]: to the nearest integer, a tie going to the even one *)
Definition round (x : Q) : Z :=
  let f := Qfloor x in
  match Qcompare (x - inject_Z f) (1 # 2) with
  | Lt => f
  | Gt => f + 1
  | Eq => if Z.even f then f else f + 1
  end.

(** [needle in hay] on strings *)
Definition contains (needle hay : string) : bool :=
  match index 0 needle hay with
  | Some _ => true
  | None => false
  end.

End Py.

(** ** Messages and the collaborators *)

Record Message : Type := {
  msg_topic : string;
  msg_partition : Z;
  msg_offset : Z;
  msg_timestamp : Z;                      (* [timestamp()[1]], milliseconds *)
  msg_key : string;
  msg_value : option string;
  msg_headers : list (string * string);
  msg_error : option string               (* [error()]: None, or the KafkaError as text *)
}.

(** [str(message.error())] *)
Definition str_error (m : Message) : string :=
  match msg_error m with
  | None => "None"
  | Some text => text
  end.

(** What one call of the client's [poll] answers. *)
Inductive poll_outcome : Type :=
| Delivered (m : Message)
| Nothing
| Failure (text : string).

Inductive client_call : Type :=
| Subscribe (topics : list string)
| Poll (timeout : Q)
| StoreOffsets (m : Message)
| Assignment
| ConsumerGroupMetadata
| Seek (topic : string) (partition offset : Z)
| Position (topic : string) (partition : Z).

(** The wrapped [DeserializingConsumer]. *)
Record KafkaClient : Type := {
  incoming : list poll_outcome;     (* what the coming polls answer *)
  assigned : list (string * Z);     (* the TopicPartitions [assignment()] lists *)
  group_metadata : string;
  calls : list client_call          (* the calls made so far, oldest first *)
}.

Definition next_poll (c : KafkaClient) : poll_outcome :=
  match incoming c with
  | [] => Nothing
  | o :: _ => o
  end.

Definition called (k : client_call) (c : KafkaClient) : KafkaClient :=
  {| incoming := incoming c; assigned := assigned c;
     group_metadata := group_metadata c; calls := calls c ++ [k] |}.

Definition polled (c : KafkaClient) : KafkaClient :=
  {| incoming := tl (incoming c); assigned := assigned c;
     group_metadata := group_metadata c; calls := calls c |}.

Inductive metric_call : Type :=
| SetSecondsBehind (seconds : Z)
| IncMessagesConsumed (count : Z) (topic : string).

(** What a helper of [general_utils] answers for one argument. *)
Inductive helper_outcome (A : Type) : Type :=
| Gives (a : A)
| AttributeFault (text : string)     (* raises AttributeError *)
| OtherFault (text : string).        (* raises anything else *)
Arguments Gives {A} a.
Arguments AttributeFault {A} text.
Arguments OtherFault {A} text.

(** ** The consumer object *)

Record TransactionalConsumer : Type := {
  _consumer : KafkaClient;
  message : option Message;
  metrics_manager : option (list metric_call);   (* the calls it received *)
  _poll_timeout : Q;
  _batch_time_elapse_start : option Q;
  _consume_max_time_secs : option Q;
  _consume_max_count : option Z;
  _store_batch_messages : bool;
  _batch_offset_starts : gmap string (gmap Z Z);
  _batch_offset_ends : gmap string (gmap Z Z);
  _messages : list Message;
  _consume_message_count : Z;
  wall_clock : nat -> Q;            (* the n-th reading of the clock *)
  clock_reads : nat                 (* readings taken so far *)
}.

Definition with_consumer (c : KafkaClient) (s : TransactionalConsumer) :=
  {| _consumer := c; message := message s; metrics_manager := metrics_manager s;
     _poll_timeout := _poll_timeout s;
     _batch_time_elapse_start := _batch_time_elapse_start s;
     _consume_max_time_secs := _consume_max_time_secs s;
     _consume_max_count := _consume_max_count s;
     _store_batch_messages := _store_batch_messages s;
     _batch_offset_starts := _batch_offset_starts s;
     _batch_offset_ends := _batch_offset_ends s;
     _messages := _messages s; _consume_message_count := _consume_message_count s;
     wall_clock := wall_clock s; clock_reads := clock_reads s |}.

Definition with_message (m : option Message) (s : TransactionalConsumer) :=
  {| _consumer := _consumer s; message := m; metrics_manager := metrics_manager s;
     _poll_timeout := _poll_timeout s;
     _batch_time_elapse_start := _batch_time_elapse_start s;
     _consume_max_time_secs := _consume_max_time_secs s;
     _consume_max_count := _consume_max_count s;
     _store_batch_messages := _store_batch_messages s;
     _batch_offset_starts := _batch_offset_starts s;
     _batch_offset_ends := _batch_offset_ends s;
     _messages := _messages s; _consume_message_count := _consume_message_count s;
     wall_clock := wall_clock s; clock_reads := clock_reads s |}.

Definition with_metrics (mm : option (list metric_call)) (s : TransactionalConsumer) :=
  {| _consumer := _consumer s; message := message s; metrics_manager := mm;
     _poll_timeout := _poll_timeout s;
     _batch_time_elapse_start := _batch_time_elapse_start s;
     _consume_max_time_secs := _consume_max_time_secs s;
     _consume_max_count := _consume_max_count s;
     _store_batch_messages := _store_batch_messages s;
     _batch_offset_starts := _batch_offset_starts s;
     _batch_offset_ends := _batch_offset_ends s;
     _messages := _messages s; _consume_message_count := _consume_message_count s;
     wall_clock := wall_clock s; clock_reads := clock_reads s |}.

Definition with_start_time (t : option Q) (s : TransactionalConsumer) :=
  {| _consumer := _consumer s; message := message s; metrics_manager := metrics_manager s;
     _poll_timeout := _poll_timeout s;
     _batch_time_elapse_start := t;
     _consume_max_time_secs := _consume_max_time_secs s;
     _consume_max_count := _consume_max_count s;
     _store_batch_messages := _store_batch_messages s;
     _batch_offset_starts := _batch_offset_starts s;
     _batch_offset_ends := _batch_offset_ends s;
     _messages := _messages s; _consume_message_count := _consume_message_count s;
     wall_clock := wall_clock s; clock_reads := clock_reads s |}.

Definition with_starts (d : gmap string (gmap Z Z)) (s : TransactionalConsumer) :=
  {| _consumer := _consumer s; message := message s; metrics_manager := metrics_manager s;
     _poll_timeout := _poll_timeout s;
     _batch_time_elapse_start := _batch_time_elapse_start s;
     _consume_max_time_secs := _consume_max_time_secs s;
     _consume_max_count := _consume_max_count s;
     _store_batch_messages := _store_batch_messages s;
     _batch_offset_starts := d;
     _batch_offset_ends := _batch_offset_ends s;
     _messages := _messages s; _consume_message_count := _consume_message_count s;
     wall_clock := wall_clock s; clock_reads := clock_reads s |}.

Definition with_ends (d : gmap string (gmap Z Z)) (s : TransactionalConsumer) :=
  {| _consumer := _consumer s; message := message s; metrics_manager := metrics_manager s;
     _poll_timeout := _poll_timeout s;
     _batch_time_elapse_start := _batch_time_elapse_start s;
     _consume_max_time_secs := _consume_max_time_secs s;
     _consume_max_count := _consume_max_count s;
     _store_batch_messages := _store_batch_messages s;
     _batch_offset_starts := _batch_offset_starts s;
     _batch_offset_ends := d;
     _messages := _messages s; _consume_message_count := _consume_message_count s;
     wall_clock := wall_clock s; clock_reads := clock_reads s |}.

Definition with_messages (l : list Message) (s : TransactionalConsumer) :=
  {| _consumer := _consumer s; message := message s; metrics_manager := metrics_manager s;
     _poll_timeout := _poll_timeout s;
     _batch_time_elapse_start := _batch_time_elapse_start s;
     _consume_max_time_secs := _consume_max_time_secs s;
     _consume_max_count := _consume_max_count s;
     _store_batch_messages := _store_batch_messages s;
     _batch_offset_starts := _batch_offset_starts s;
     _batch_offset_ends := _batch_offset_ends s;
     _messages := l; _consume_message_count := _consume_message_count s;
     wall_clock := wall_clock s; clock_reads := clock_reads s |}.

Definition with_count (n : Z) (s : TransactionalConsumer) :=
  {| _consumer := _consumer s; message := message s; metrics_manager := metrics_manager s;
     _poll_timeout := _poll_timeout s;
     _batch_time_elapse_start := _batch_time_elapse_start s;
     _consume_max_time_secs := _consume_max_time_secs s;
     _consume_max_count := _consume_max_count s;
     _store_batch_messages := _store_batch_messages s;
     _batch_offset_starts := _batch_offset_starts s;
     _batch_offset_ends := _batch_offset_ends s;
     _messages := _messages s; _consume_message_count := n;
     wall_clock := wall_clock s; clock_reads := clock_reads s |}.

Definition with_clock_reads (n : nat) (s : TransactionalConsumer) :=
  {| _consumer := _consumer s; message := message s; metrics_manager := metrics_manager s;
     _poll_timeout := _poll_timeout s;
     _batch_time_elapse_start := _batch_time_elapse_start s;
     _consume_max_time_secs := _consume_max_time_secs s;
     _consume_max_count := _consume_max_count s;
     _store_batch_messages := _store_batch_messages s;
     _batch_offset_starts := _batch_offset_starts s;
     _batch_offset_ends := _batch_offset_ends s;
     _messages := _messages s; _consume_message_count := _consume_message_count s;
     wall_clock := wall_clock s; clock_reads := n |}.

Abbreviation Method := (M TransactionalConsumer).

(** ** Calls to the collaborators *)

(** [datetime.datetime.now().timestamp()], and [utcnow()] alike: the next
    reading of the wall clock *)
Definition now : Method Q :=
  fun s => (Returned (wall_clock s (clock_reads s)),
            with_clock_reads (S (clock_reads s)) s).

(** [self._consumer.poll(timeout)] *)
Definition client_poll (timeout : Q) : Method (option Message) :=
  fun s =>
    let c := called (Poll timeout) (_consumer s) in
    let s' := with_consumer (polled c) s in
    match next_poll c with
    | Delivered m => (Returned (Some m), s')
    | Nothing => (Returned None, s')
    | Failure text => (Raised (ExternalError text), s')
    end.

(** a call of the client that only has to be noted *)
Definition client_note (k : client_call) : Method unit :=
  modify (fun s => with_consumer (called k (_consumer s)) s).

(** [self._consumer.assignment()] *)
Definition client_assignment : Method (list (string * Z)) :=
  client_note Assignment ;; gets (fun s => assigned (_consumer s)).

(** [self._consumer.consumer_group_metadata()] *)
Definition client_consumer_group_metadata : Method string :=
  client_note ConsumerGroupMetadata ;; gets (fun s => group_metadata (_consumer s)).

(** The metrics manager, when there is one, notes the call. *)
Definition metrics_note (k : metric_call) : Method unit :=
  modify (fun s => with_metrics (option_map (fun l : list metric_call => (l ++ [k])%list) (metrics_manager s)) s).

(** [if self.metrics_manager:] *)
Definition has_metrics (s : TransactionalConsumer) : bool :=
  match metrics_manager s with
  | Some _ => true
  | None => false
  end.

(** *** Attribute lookup

    [rollback_consumption] reaches the client through an attribute that
    is looked up by name, so the lookup itself is part of the model. *)

Inductive pyvalue : Type :=
| ClientObject                      (* the wrapped DeserializingConsumer *)
| BoundMethod (name : string).      (* one of its methods *)

(** The public attributes of confluent_kafka's DeserializingConsumer: the
    methods of its Consumer interface. *)
Definition DeserializingConsumer_attributes : list string :=
  [ "assign"; "assignment"; "close"; "commit"; "committed"; "consume";
    "consumer_group_metadata"; "get_watermark_offsets"; "incremental_assign";
    "incremental_unassign"; "list_topics"; "memberid"; "offsets_for_times";
    "pause"; "poll"; "position"; "resume"; "seek"; "set_sasl_credentials";
    "store_offsets"; "subscribe"; "unassign"; "unsubscribe" ].

(** [value.__getattribute__(attr)] *)
Definition getattribute (value : pyvalue) (attr : string) : Method pyvalue :=
  match value with
  | ClientObject =>
      if bool_decide (attr ∈ DeserializingConsumer_attributes)
      then ret (BoundMethod attr)
      else raise (AttributeError
                    ("'DeserializingConsumer' object has no attribute '" ++ attr ++ "'"))
  | BoundMethod _ =>
      raise (AttributeError
               ("'builtin_function_or_method' object has no attribute '" ++ attr ++ "'"))
  end.

Definition method_name (k : client_call) : string :=
  match k with
  | Subscribe _ => "subscribe"
  | Poll _ => "poll"
  | StoreOffsets _ => "store_offsets"
  | Assignment => "assignment"
  | ConsumerGroupMetadata => "consumer_group_metadata"
  | Seek _ _ _ => "seek"
  | Position _ _ => "position"
  end.

(** [value(...)], the call [k] being the arguments it is given *)
Definition invoke (value : pyvalue) (k : client_call) : Method unit :=
  match value with
  | BoundMethod name =>
      if bool_decide (name = method_name k)
      then client_note k
      else raise (TypeError "wrong arguments")
  | ClientObject => raise (TypeError "'DeserializingConsumer' object is not callable")
  end.

(** The names an instance answers to by itself: what [__init__] and
    [_init_attrs] assign, and the methods of the two classes. *)
Definition instance_attributes : list string :=
  [ "_urls"; "_auth"; "_settings"; "_consumer"; "_group_id"; "_topic_metadata";
    "_schema_registry"; "message"; "metrics_manager"; "topics"; "_poll_timeout";
    "_batch_time_elapse_start"; "_consume_max_time_secs"; "_consume_max_count";
    "_store_batch_messages"; "_batch_offset_starts"; "_batch_offset_ends";
    "_messages"; "_consume_message_count";
    "_consume_message_callback"; "_make_config"; "_init_consumer";
    "_poll_for_message"; "_handle_consumed_message"; "key"; "value"; "headers";
    "messages"; "consume"; "commit"; "_init_attrs"; "_set_batch_start_time";
    "_max_consume_time_continue"; "_max_consume_count_continue"; "_keep_consuming";
    "_mark_offset_start"; "_mark_offset_end"; "_get_consumer_partition_assignment";
    "_commit"; "pending_commits"; "rollback_consumption" ].

(** [Consumer.__getattr__], which Python calls for a name the instance
    does not answer to.  Its first attempt, [self.__getattribute__(attr)],
    fails for such a name once more; the second asks the wrapped client. *)
Definition Consumer___getattr__ (attr : string) : Method pyvalue :=
  getattribute ClientObject attr.

(** [self.consumer]: the client is kept under the name [_consumer], and
    [consumer] is none of the instance's names. *)
Definition self_consumer : Method pyvalue :=
  if bool_decide ("consumer" ∈ instance_attributes)
  then ret ClientObject
  else Consumer___getattr__ "consumer".

(** ** The producer *)

Inductive producer_call : Type :=
| BeginTransaction
| SendOffsetsToTransaction (offsets : list (string * Z * Z)) (group : string)
| CommitTransaction (timeout : Z).

(** Modelled from the spec: the transactional producer handed to [commit]
    is a class of this repository whose file is not among the sources.
    The spec gives it a flag [activeTransaction] and the operations
    [beginTransaction], [sendOffsetsToTransaction] and
    [commitTransaction]; a transaction is open from its begin to its
    commit.  A call the producer refuses raises and changes nothing. *)
Record Producer : Type := {
  active_transaction : bool;
  refuses : producer_call -> option string;
  transaction_calls : list producer_call      (* the calls accepted so far *)
}.

Definition producer_do (k : producer_call) (active : bool -> bool) : M Producer unit :=
  fun p => match refuses p k with
           | Some text => (Raised (ExternalError text), p)
           | None => (Returned tt,
                      {| active_transaction := active (active_transaction p);
                         refuses := refuses p;
                         transaction_calls := transaction_calls p ++ [k] |})
           end.

Definition begin_transaction : M Producer unit :=
  producer_do BeginTransaction (fun _ => true).
Definition send_offsets_to_transaction (offsets : list (string * Z * Z)) (group : string)
  : M Producer unit :=
  producer_do (SendOffsetsToTransaction offsets group) (fun a => a).
Definition commit_transaction (timeout : Z) : M Producer unit :=
  producer_do (CommitTransaction timeout) (fun _ => false).

(** ** Offset bookkeeping on the dicts *)

(** [d[topic][partition]], when both keys are there *)
Definition tracked (d : gmap string (gmap Z Z)) (topic : string) (partition : Z) : option Z :=
  d !! topic ≫= (.!! partition).

(** the two statements of [_mark_offset_start] *)
Definition mark_start (topic : string) (partition offset : Z) (starts : gmap string (gmap Z Z))
  : gmap string (gmap Z Z) :=
  let starts := match starts !! topic with
                | Some _ => starts
                | None => <[topic := ∅]> starts
                end in
  let partitions := default ∅ (starts !! topic) in
  match partitions !! partition with
  | Some _ => starts
  | None => <[topic := <[partition := offset]> partitions]> starts
  end.

(** the two statements of [_mark_offset_end] *)
Definition mark_end (topic : string) (partition offset : Z) (ends : gmap string (gmap Z Z))
  : gmap string (gmap Z Z) :=
  let ends := match ends !! topic with
              | Some _ => ends
              | None => <[topic := ∅]> ends
              end in
  <[topic := <[partition := offset]> (default ∅ (ends !! topic))]> ends.

(** the list [commit] builds from [_batch_offset_ends] *)
Definition offsets_to_commit (ends : gmap string (gmap Z Z)) : list (string * Z * Z) :=
  map_to_list ends ≫= (fun '(topic, partitions) =>
    (fun '(partition, offset) => (topic, partition, offset + 1)) <$> map_to_list partitions).

(** the dict [_get_consumer_partition_assignment] builds *)
Definition partition_assignment (assignments : list (string * Z)) : gmap string (list Z) :=
  list_to_map
    ((fun topic => (topic, snd <$> filter (fun obj => fst obj = topic) assignments))
       <$> elements (list_to_set (fst <$> assignments) : gset string)).

(** ** Data of the examples *)

Module Scenario.

(** A stand-in for [get_guid_from_message]: the guid is the header of that
    name, and a message without it makes the helper fail on an attribute. *)
Definition guid_of_headers (m : Message) : helper_outcome string :=
  match (list_to_map (msg_headers m) : gmap string string) !! "guid" with
  | Some guid => Gives guid
  | None => AttributeFault "'NoneType' object has no attribute 'decode'"
  end.

(** A stand-in for [parse_headers]: the headers as they are. *)
Definition headers_as_they_are (h : list (string * string))
  : helper_outcome (list (string * string)) :=
  Gives h.

(** a sound message *)
Definition record (topic : string) (partition offset : Z) : Message :=
  {| msg_topic := topic; msg_partition := partition; msg_offset := offset;
     msg_timestamp := 99000; msg_key := "key"; msg_value := Some "value";
     msg_headers := [("guid", "0001")]; msg_error := None |}.

(** a message without headers whose error has the signature *)
Definition corrupt : Message :=
  {| msg_topic := "T"; msg_partition := 0; msg_offset := 7;
     msg_timestamp := 99000; msg_key := "key"; msg_value := None;
     msg_headers := [];
     msg_error := Some "'NoneType' object has no attribute 'headers'" |}.

(** a message without headers that carries another error *)
Definition broken : Message :=
  {| msg_topic := "T"; msg_partition := 0; msg_offset := 8;
     msg_timestamp := 99000; msg_key := "key"; msg_value := None;
     msg_headers := [];
     msg_error := Some "KafkaError{code=_TRANSPORT,val=-195,str=broker transport failure}" |}.

(** a message with its headers whose error has the signature *)
Definition flagged : Message :=
  {| msg_topic := "T"; msg_partition := 0; msg_offset := 9;
     msg_timestamp := 99000; msg_key := "key"; msg_value := None;
     msg_headers := [("guid", "0002")];
     msg_error := Some "'NoneType' object has no attribute 'headers'" |}.

Definition client (answers : list poll_outcome) (assignment : list (string * Z)) : KafkaClient :=
  {| incoming := answers; assigned := assignment; group_metadata := "group"; calls := [] |}.

(** a clock that reads [t], [t + 1], [t + 2], ... *)
Definition ticking (t : Z) : nat -> Q := fun n => inject_Z (t + Z.of_nat n).

(** a clock that reads [a] twice and [b] from then on *)
Definition stepping (a b : Z) : nat -> Q :=
  fun n => if (n <? 2)%nat then inject_Z a else inject_Z b.

(** a consumer at the start of a batch *)
Definition consumer (c : KafkaClient) (max_time : option Q) (max_count : option Z)
    (store : bool) (clock : nat -> Q) : TransactionalConsumer :=
  {| _consumer := c; message := None; metrics_manager := Some [];
     _poll_timeout := 5;
     _batch_time_elapse_start := None;
     _consume_max_time_secs := max_time;
     _consume_max_count := max_count;
     _store_batch_messages := store;
     _batch_offset_starts := ∅; _batch_offset_ends := ∅;
     _messages := []; _consume_message_count := 0;
     wall_clock := clock; clock_reads := 0 |}.

(** a consumer in a batch, with the offsets it tracks given *)
Definition tracking (c : KafkaClient) (starts ends : gmap string (gmap Z Z)) (count : Z)
    (held : option Message) : TransactionalConsumer :=
  {| _consumer := c; message := held; metrics_manager := None;
     _poll_timeout := 5;
     _batch_time_elapse_start := None;
     _consume_max_time_secs := None;
     _consume_max_count := None;
     _store_batch_messages := false;
     _batch_offset_starts := starts; _batch_offset_ends := ends;
     _messages := []; _consume_message_count := count;
     wall_clock := ticking 100; clock_reads := 0 |}.

Definition producer (open : bool) : Producer :=
  {| active_transaction := open; refuses := fun _ => None; transaction_calls := [] |}.


(** a producer that refuses to commit its transaction *)
Definition refusing_commit (open : bool) : Producer :=
  {| active_transaction := open;
     refuses := fun k => match k with
                         | CommitTransaction _ => Some "KafkaException"
                         | _ => None
                         end;
     transaction_calls := [] |}.

End Scenario.

(** Modelled from the spec: the configuration collaborator, a class of
    this repository whose file is not among the sources.  It supplies the
    default poll timeout and the batch bounds. *)
Module Settings.
Record t : Type := {
  poll_timeout_secs : Q;
  batch_consume_max_time_secs : option Q;
  batch_consume_max_count : option Z;
  batch_consume_store_messages : option bool
}.
End Settings.

Section Engine.

(** The two helpers of [general_utils] the classes call.  That file is
    not among the sources: what the helpers answer is left open. *)
Variable get_guid_from_message : Message -> helper_outcome string.
Variable parse_headers : list (string * string) -> helper_outcome (list (string * string)).

Definition call_helper {A} (o : helper_outcome A) : Method A :=
  match o with
  | Gives a => ret a
  | AttributeFault text => raise (AttributeError text)
  | OtherFault text => raise (ExternalError text)
  end.

(** [self.message.<attr>]: the held message, if one is held *)
Definition held_message (attr : string) : Method Message :=
  m <- gets message ;;
  match m with
  | Some m => ret m
  | None => raise (AttributeError ("'NoneType' object has no attribute '" ++ attr ++ "'"))
  end.

(** *** class Consumer *)

Definition Consumer__poll_for_message (timeout : option Q) : Method Message :=
  default_timeout <- gets _poll_timeout ;;
  let timeout := match timeout with
                 | Some t => if Py.truthy_Q (Some t) then t else default_timeout
                 | None => default_timeout
                 end in
  message <- client_poll timeout ;;
  match message with
  | None => raise NoMessageError
  | Some m => ret m
  end.

Definition Consumer__handle_consumed_message : Method unit :=
  try_except
    (m <- held_message "headers" ;;
     guid <- call_helper (get_guid_from_message m) ;;
     metrics <- gets has_metrics ;;
     when metrics
       (t <- now ;;
        metrics_note (SetSecondsBehind (Py.round t - msg_timestamp m / 1000))))
    (fun e => match e with
              | AttributeError _ =>
                  Some (m <- held_message "error" ;;
                        when (Py.contains "object has no attribute 'headers'" (str_error m))
                          (raise (ConsumeMessageError
                             "Headers were inaccessible on the message. Potentially a corrupt message?")))
              | _ => None
              end) ;;
  metrics <- gets has_metrics ;;
  when metrics
    (m <- held_message "topic" ;;
     metrics_note (IncMessagesConsumed 1 (msg_topic m))).

Definition Consumer_key : Method string :=
  m <- held_message "key" ;; ret (msg_key m).

Definition Consumer_value : Method (option string) :=
  m <- held_message "value" ;; ret (msg_value m).

Definition Consumer_headers : Method (list (string * string)) :=
  m <- held_message "headers" ;; call_helper (parse_headers (msg_headers m)).

Definition Consumer_messages : Method (list (option Message)) :=
  m <- gets message ;; ret [m].

(** [consume] calls [self._handle_consumed_message()], which is the
    method of the class of the object: it is an argument here. *)
Definition Consumer_consume (_handle_consumed_message : Method unit) (timeout : option Q)
  : Method (option Message) :=
  m <- Consumer__poll_for_message timeout ;;
  modify (with_message (Some m)) ;;
  _handle_consumed_message ;;
  gets message.

Definition Consumer_commit : Method unit :=
  m <- gets message ;;
  match m with
  | Some m => client_note (StoreOffsets m)
  | None => raise (TypeError "store_offsets: expected a Message")
  end ;;
  modify (with_message None).

(** *** class TransactionalConsumer *)

Definition _init_attrs : Method unit :=
  modify (with_starts ∅) ;;
  modify (with_ends ∅) ;;
  modify (with_messages []) ;;
  modify (with_count 0).

Definition _set_batch_start_time : Method unit :=
  t <- now ;; modify (with_start_time (Some t)).

Definition _max_consume_time_continue : Method bool :=
  max_time <- gets _consume_max_time_secs ;;
  match max_time with
  | Some max_secs =>
      if Py.truthy_Q (Some max_secs) then
        start <- gets _batch_time_elapse_start ;;
        when (negb (Py.truthy_Q start)) _set_batch_start_time ;;
        t <- now ;;
        start <- gets _batch_time_elapse_start ;;
        match start with
        | Some t0 =>
            let continue_consume := Py.ltb (t - t0) max_secs in
            when (negb continue_consume) (modify (with_start_time None)) ;;
            ret continue_consume
        | None => raise (TypeError "unsupported operand type(s) for -: 'float' and 'NoneType'")
        end
      else ret true
  | None => ret true
  end.

Definition _max_consume_count_continue (consume_multiplier : Z) : Method bool :=
  max_count <- gets _consume_max_count ;;
  match max_count with
  | Some n =>
      if Py.truthy_Z (Some n) then
        count <- gets _consume_message_count ;;
        ret (count <? n * consume_multiplier)
      else ret true
  | None => ret true
  end.

(** [a and b()]: the time test runs only when the count test passed *)
Definition _keep_consuming (consume_multiplier : Z) : Method bool :=
  by_count <- _max_consume_count_continue consume_multiplier ;;
  if by_count then _max_consume_time_continue else ret false.

Definition _mark_offset_start : Method unit :=
  m <- held_message "topic" ;;
  modify (fun s => with_starts
                     (mark_start (msg_topic m) (msg_partition m) (msg_offset m)
                                 (_batch_offset_starts s)) s).

Definition _mark_offset_end : Method unit :=
  m <- held_message "topic" ;;
  modify (fun s => with_ends
                     (mark_end (msg_topic m) (msg_partition m) (msg_offset m)
                               (_batch_offset_ends s)) s).

Definition _get_consumer_partition_assignment : Method (gmap string (list Z)) :=
  assignments <- client_assignment ;;
  ret (partition_assignment assignments).

Definition _commit (offsets : list (string * Z * Z))
  : M (Producer * TransactionalConsumer) unit :=
  when (negb (bool_decide (offsets = [])))
    (active <- on_fst (gets active_transaction) ;;
     when (negb active) (on_fst begin_transaction) ;;
     group <- on_snd client_consumer_group_metadata ;;
     on_fst (send_offsets_to_transaction offsets group)) ;;
  active <- on_fst (gets active_transaction) ;;
  when active (on_fst (commit_transaction 30)).

Definition TransactionalConsumer__handle_consumed_message : Method unit :=
  Consumer__handle_consumed_message ;;
  _mark_offset_start ;;
  _mark_offset_end ;;
  modify (fun s => with_count (_consume_message_count s + 1) s) ;;
  store <- gets _store_batch_messages ;;
  when store
    (m <- gets message ;;
     match m with
     | Some m => modify (fun s => with_messages (_messages s ++ [m]) s)
     | None => ret tt
     end).

Definition pending_commits (s : TransactionalConsumer) : bool :=
  negb (_consume_message_count s =? 0).

Definition TransactionalConsumer_messages : Method (list (option Message)) :=
  store <- gets _store_batch_messages ;;
  if store then gets (fun s => Some <$> _messages s) else Consumer_messages.

Definition rollback_consumption : Method unit :=
  assignments <- _get_consumer_partition_assignment ;;
  starts <- gets _batch_offset_starts ;;
  for_each (map_to_list starts) (fun '(topic, partitions) =>
    for_each (map_to_list partitions) (fun '(partition, offset) =>
      when (bool_decide (partition ∈ default [] (assignments !! topic)))
        (consumer <- self_consumer ;;
         seek <- getattribute consumer "seek" ;;
         invoke seek (Seek topic partition offset) ;;
         consumer <- self_consumer ;;
         position <- getattribute consumer "position" ;;
         invoke position (Position topic partition)))) ;;
  _init_attrs.

Definition TransactionalConsumer_commit : M (Producer * TransactionalConsumer) unit :=
  offsets <- on_snd (gets (fun s => offsets_to_commit (_batch_offset_ends s))) ;;
  _commit offsets ;;
  on_snd (modify (with_message None)) ;;
  on_snd _init_attrs.

Definition TransactionalConsumer_consume (timeout : option Q) (consume_multiplier : Z)
  : Method (option Message) :=
  try_except
    (keep <- _keep_consuming consume_multiplier ;;
     if keep
     then Consumer_consume TransactionalConsumer__handle_consumed_message timeout
     else raise FinishedTransactionBatch)
    (fun e => match e with
              | NoMessageError =>
                  Some (ends <- gets _batch_offset_ends ;;
                        if bool_decide (ends ≠ ∅)
                        then raise FinishedTransactionBatch
                        else raise NoMessageError)
              | _ => None
              end).

(** *** Construction *)

(** [self._settings.<attr>] *)
Definition setting {A} (settings : option Settings.t) (attr : string) (f : Settings.t -> A)
  : outcome A :=
  match settings with
  | Some c => Returned (f c)
  | None => Raised (AttributeError ("'NoneType' object has no attribute '" ++ attr ++ "'"))
  end.

(** [x if x else y], [y] being evaluated only when needed *)
Definition or_else {A} (truthy : A -> bool) (x : A) (y : outcome A) : outcome A :=
  if truthy x then Returned x else y.

(** [TransactionalConsumer.__init__], given the client the constructor
    of DeserializingConsumer makes and the clock of the process.  The
    arguments that only go into the client's configuration are left
    out. *)
Definition TransactionalConsumer___init__
    (client : KafkaClient) (clock : nat -> Q)
    (consume_topics_list : list string) (auto_subscribe : bool)
    (settings_config : option Settings.t) (metrics : bool)
    (batch_consume_max_time_seconds : option Q)
    (batch_consume_max_count : option Z)
    (batch_consume_store_messages : option bool)
  : outcome TransactionalConsumer :=
  let poll_timeout := match settings_config with
                      | Some c => Settings.poll_timeout_secs c
                      | None => inject_Z 5
                      end in
  let client := if auto_subscribe then called (Subscribe consume_topics_list) client
                else client in
  match or_else Py.truthy_Q batch_consume_max_time_seconds
          (setting settings_config "batch_consume_max_time_secs" Settings.batch_consume_max_time_secs)
  with
  | Raised e => Raised e
  | Returned max_time =>
  match or_else Py.truthy_Z batch_consume_max_count
          (setting settings_config "batch_consume_max_count" Settings.batch_consume_max_count)
  with
  | Raised e => Raised e
  | Returned max_count =>
  match or_else (fun b => default false b) batch_consume_store_messages
          (setting settings_config "batch_consume_store_messages" Settings.batch_consume_store_messages)
  with
  | Raised e => Raised e
  | Returned store =>
      Returned
        {| _consumer := client; message := None;
           metrics_manager := if metrics then Some [] else None;
           _poll_timeout := poll_timeout;
           _batch_time_elapse_start := None;
           _consume_max_time_secs := max_time;
           _consume_max_count := max_count;
           _store_batch_messages := default false store;
           _batch_offset_starts := ∅; _batch_offset_ends := ∅;
           _messages := []; _consume_message_count := 0;
           wall_clock := clock; clock_reads := 0 |}
  end end end.

(** ** Notions the properties are stated with *)

(** the exceptions this file raises to steer its caller *)
Definition control_signal (e : exn) : Prop :=
  e = NoMessageError \/ e = FinishedTransactionBatch.

#[local] Instance exn_eq_dec : EqDecision exn.
Proof. solve_decision. Defined.

#[local] Instance control_signal_dec e : Decision (control_signal e).
Proof. unfold control_signal. apply _. Defined.

(** what a method leaves alone when it only reads the clock and moves
    the start of the time window *)
Definition window_only (s s' : TransactionalConsumer) : Prop :=
  s' = with_clock_reads (clock_reads s') (with_start_time (_batch_time_elapse_start s') s).

(** The text the except clause of [Consumer._handle_consumed_message]
    looks for in [str(self.message.error())]. *)
Definition headers_signature : string := "object has no attribute 'headers'".

(** the (topic, partition) an entry of the list is for *)
Definition offset_key (entry : string * Z * Z) : string * Z := (entry.1.1, entry.1.2).

(** the object after [self.message = None] and [self._init_attrs()] *)
Definition finalized (s : TransactionalConsumer) : TransactionalConsumer :=
  with_count 0 (with_messages [] (with_ends ∅ (with_starts ∅ (with_message None s)))).

(** what the call noted for the message it returned *)
Definition noted (m : Message) (s s' : TransactionalConsumer) : Prop :=
  message s' = Some m /\
  _batch_offset_starts s'
  = mark_start (msg_topic m) (msg_partition m) (msg_offset m) (_batch_offset_starts s) /\
  _batch_offset_ends s'
  = mark_end (msg_topic m) (msg_partition m) (msg_offset m) (_batch_offset_ends s) /\
  _consume_message_count s' = _consume_message_count s + 1 /\
  _messages s' = (if _store_batch_messages s then _messages s ++ [m] else _messages s)%list /\
  _consume_max_count s' = _consume_max_count s /\
  _consume_max_time_secs s' = _consume_max_time_secs s /\
  _store_batch_messages s' = _store_batch_messages s.

(** [n] consume calls in a row that each returned a message *)
Inductive consumed_in_a_row (consume_multiplier : Z)
  : nat -> TransactionalConsumer -> TransactionalConsumer -> Prop :=
| in_a_row_O s : consumed_in_a_row consume_multiplier 0 s s
| in_a_row_S n s s1 timeout r s2 :
    consumed_in_a_row consume_multiplier n s s1 ->
    TransactionalConsumer_consume timeout consume_multiplier s1 = (Returned r, s2) ->
    consumed_in_a_row consume_multiplier (S n) s s2.

(** a tracked start offset whose partition the client still lists *)
Definition start_assigned (s : TransactionalConsumer) : Prop :=
  exists topic partition offset,
    tracked (_batch_offset_starts s) topic partition = Some offset /\
    (topic, partition) ∈ assigned (_consumer s).

(** the offsets of the messages of [l] that are of one (topic, partition),
    in the order of [l] *)
Definition offsets_seen (topic : string) (partition : Z) (l : list Message) : list Z :=
  msg_offset <$> filter (fun m => msg_topic m = topic /\ msg_partition m = partition) l.

(** Consume calls made one after the other, with no commit and no
    rollback between them, and the messages they returned, oldest first. *)
Inductive batch_calls : TransactionalConsumer -> list Message -> TransactionalConsumer -> Prop :=
| batch_nil s : batch_calls s [] s
| batch_returned s l s1 timeout consume_multiplier m s2 :
    batch_calls s l s1 ->
    TransactionalConsumer_consume timeout consume_multiplier s1 = (Returned (Some m), s2) ->
    batch_calls s (l ++ [m]) s2
| batch_raised s l s1 timeout consume_multiplier e s2 :
    batch_calls s l s1 ->
    TransactionalConsumer_consume timeout consume_multiplier s1 = (Raised e, s2) ->
    batch_calls s l s2.

(** the timeout [_poll_for_message] hands to the client's [poll] *)
Definition effective_timeout (timeout : option Q) (s : TransactionalConsumer) : Q :=
  match timeout with
  | Some t => if Py.truthy_Q (Some t) then t else _poll_timeout s
  | None => _poll_timeout s
  end.

(** what a method leaves alone when it only reads the clock and calls the
    metrics manager *)
Definition metrics_only (s s' : TransactionalConsumer) : Prop :=
  s' = with_metrics (metrics_manager s') (with_clock_reads (clock_reads s') s).

(** Consume calls made one after the other, all with one multiplier, and
    the messages they returned, oldest first. *)
Inductive batch_calls_at (consume_multiplier : Z)
  : TransactionalConsumer -> list Message -> TransactionalConsumer -> Prop :=
| batch_at_nil s : batch_calls_at consume_multiplier s [] s
| batch_at_call s l s1 timeout r s2 :
    batch_calls_at consume_multiplier s l s1 ->
    TransactionalConsumer_consume timeout consume_multiplier s1 = (r, s2) ->
    batch_calls_at consume_multiplier s
      (l ++ match r with Returned (Some m) => [m] | _ => [] end) s2.

(** no topic of the dict has an empty dict of partitions *)
Definition no_empty_topic (d : gmap string (gmap Z Z)) : Prop :=
  forall topic partitions, d !! topic = Some partitions -> partitions <> ∅.

(** ** Properties *)

(** *** Running methods *)

Lemma bind_returned {S A B} (c : M S A) (k : A -> M S B) s a s1 :
  c s = (Returned a, s1) -> bind c k s = k a s1.
Proof. intros H. unfold bind. now rewrite H. Qed.

Lemma bind_raised {S A B} (c : M S A) (k : A -> M S B) s e s1 :
  c s = (Raised e, s1) -> bind c k s = (Raised e, s1).
Proof. intros H. unfold bind. now rewrite H. Qed.

Lemma bind_inv {S A B} (c : M S A) (k : A -> M S B) s r s' :
  bind c k s = (r, s') ->
  (exists a s1, c s = (Returned a, s1) /\ k a s1 = (r, s')) \/
  (exists e, c s = (Raised e, s') /\ r = Raised e).
Proof.
  unfold bind. destruct (c s) as [[a|e] s1]; intros H.
  - left. eauto.
  - right. inversion H; subst. eauto.
Qed.

Ltac run :=
  unfold bind, ret, raise, gets, modify, when, try_except in *; simpl in *.

Ltac cases :=
  repeat (run; simplify_eq /=;
          match goal with
          | H : context [match ?x with _ => _ end] |- _ => destruct x eqn:?
          | |- context [match ?x with _ => _ end] => destruct x eqn:?
          end);
  run; simplify_eq /=; try congruence.

Lemma window_only_refl s : window_only s s.
Proof. unfold window_only. now destruct s. Qed.

Lemma max_consume_count_continue_pure mult s :
  snd (_max_consume_count_continue mult s) = s /\
  exists b, fst (_max_consume_count_continue mult s) = Returned b.
Proof.
  unfold _max_consume_count_continue. run.
  destruct (_consume_max_count s) as [n|]; simpl; eauto.
  destruct (negb (n =? 0)); simpl; eauto.
Qed.

Lemma max_consume_time_continue_window s r s' :
  _max_consume_time_continue s = (r, s') -> window_only s s'.
Proof.
  unfold _max_consume_time_continue, _set_batch_start_time, now. run.
  destruct (_consume_max_time_secs s) as [mx|]; simpl.
  2:{ intros H; inversion H; subst. apply window_only_refl. }
  destruct (negb (Qeq_bool mx 0)); simpl.
  2:{ intros H; inversion H; subst. apply window_only_refl. }
  destruct (negb (Py.truthy_Q (_batch_time_elapse_start s))) eqn:E; simpl.
  - destruct (negb (Py.ltb _ mx)); simpl; intros H; inversion H; subst;
      unfold window_only; now destruct s.
  - destruct (_batch_time_elapse_start s) as [t0|] eqn:E0; simpl.
    + destruct (negb (Py.ltb _ mx)); simpl; intros H; inversion H; subst;
        unfold window_only; destruct s; simpl in *; now subst.
    + discriminate E.
Qed.

Lemma keep_consuming_window mult s r s' :
  _keep_consuming mult s = (r, s') -> window_only s s'.
Proof.
  unfold _keep_consuming. intros H.
  destruct (max_consume_count_continue_pure mult s) as [Hs [b Hb]].
  destruct (_max_consume_count_continue mult s) as [r0 s0] eqn:E.
  simpl in Hs, Hb. subst r0 s0.
  rewrite (bind_returned _ _ _ _ _ E) in H.
  destruct b.
  - eapply max_consume_time_continue_window; eauto.
  - inversion H; subst. apply window_only_refl.
Qed.

(** The two tests raise nothing but the TypeError of a subtraction from
    None, which no run reaches. *)
Lemma keep_consuming_raises mult s e s' :
  _keep_consuming mult s = (Raised e, s') -> exists why, e = TypeError why.
Proof.
  unfold _keep_consuming, _max_consume_count_continue, _max_consume_time_continue,
    _set_batch_start_time, now.
  run. intros H. cases; eauto.
Qed.

(** *** An empty poll *)

Lemma window_only_fields s s' :
  window_only s s' ->
  _consumer s' = _consumer s /\ message s' = message s /\
  metrics_manager s' = metrics_manager s /\
  _batch_offset_starts s' = _batch_offset_starts s /\
  _batch_offset_ends s' = _batch_offset_ends s /\
  _messages s' = _messages s /\
  _consume_message_count s' = _consume_message_count s /\
  _consume_max_count s' = _consume_max_count s /\
  _consume_max_time_secs s' = _consume_max_time_secs s.
Proof. intros ->. now repeat split. Qed.

(** A poll that answers nothing makes [Consumer.consume] raise
    NoMessageError before anything of the object is written: only the
    client has seen a call. *)
Lemma consume_nothing handler timeout s :
  next_poll (_consumer s) = Nothing ->
  exists t, Consumer_consume handler timeout s =
            (Raised NoMessageError,
             with_consumer (polled (called (Poll t) (_consumer s))) s).
Proof.
  intros Hp. unfold Consumer_consume, Consumer__poll_for_message, client_poll. run.
  unfold next_poll in *. simpl.
  destruct (incoming (_consumer s)) as [|o l] eqn:E; simpl; [eauto|].
  subst o. simpl. eauto.
Qed.

(** C2. A consume call of the transactional consumer whose count and
    time tests let it continue, and whose poll answers no message within
    the timeout, raises FinishedTransactionBatch when an end offset is
    tracked for the batch, and raises NoMessageError when the dict of end
    offsets is empty. *)
Theorem consume_empty_poll timeout consume_multiplier s s1 :
  _keep_consuming consume_multiplier s = (Returned true, s1) ->
  next_poll (_consumer s) = Nothing ->
  ((exists topic partition offset,
       tracked (_batch_offset_ends s) topic partition = Some offset) ->
   fst (TransactionalConsumer_consume timeout consume_multiplier s)
   = Raised FinishedTransactionBatch) /\
  (_batch_offset_ends s = ∅ ->
   fst (TransactionalConsumer_consume timeout consume_multiplier s)
   = Raised NoMessageError).
Proof.
  intros Hk Hp.
  pose proof (keep_consuming_window _ _ _ _ Hk) as Hw.
  apply window_only_fields in Hw as (Hc & _ & _ & _ & He & _).
  rewrite <- Hc in Hp.
  destruct (consume_nothing TransactionalConsumer__handle_consumed_message timeout s1 Hp)
    as [t Ht].
  assert (Hrun : TransactionalConsumer_consume timeout consume_multiplier s
                 = (if bool_decide (_batch_offset_ends s ≠ ∅)
                    then Raised FinishedTransactionBatch else Raised NoMessageError,
                    with_consumer (polled (called (Poll t) (_consumer s1))) s1)).
  { unfold TransactionalConsumer_consume, try_except.
    rewrite (bind_returned _ _ _ _ _ Hk), Ht. run. rewrite He.
    now destruct (bool_decide (_batch_offset_ends s ≠ ∅)). }
  rewrite Hrun. simpl. split.
  - intros (topic & partition & offset & Ht').
    rewrite bool_decide_eq_true_2; [reflexivity|].
    intros Hempty. rewrite Hempty in Ht'. unfold tracked in Ht'.
    rewrite lookup_empty in Ht'. discriminate.
  - intros Hempty. rewrite bool_decide_eq_false_2; [reflexivity|]. auto.
Qed.

(** *** What a failed consume leaves behind *)

(** Handling a message raises neither of the two signals: what it raises
    is ConsumeMessageError, or what a helper raised. *)
Lemma Consumer_handle_no_signal s e s' :
  Consumer__handle_consumed_message s = (Raised e, s') -> ~ control_signal e.
Proof.
  unfold Consumer__handle_consumed_message, held_message, call_helper,
    metrics_note, now, control_signal.
  run. intros H [?|?]; cases.
Qed.

Lemma handle_no_signal s e s' :
  TransactionalConsumer__handle_consumed_message s = (Raised e, s') -> ~ control_signal e.
Proof.
  unfold TransactionalConsumer__handle_consumed_message. intros H.
  apply bind_inv in H as [(a & s1 & H1 & H)|(e' & H1 & H)].
  2:{ inversion H; subst. eapply Consumer_handle_no_signal; eauto. }
  revert H. unfold _mark_offset_start, _mark_offset_end, held_message, control_signal.
  run. intros H [?|?]; cases.
Qed.

(** When [Consumer.consume] raises one of the two signals, the poll
    answered nothing and no attribute of the object was written. *)
Lemma consume_signal timeout s e s' :
  Consumer_consume TransactionalConsumer__handle_consumed_message timeout s = (Raised e, s') ->
  control_signal e ->
  e = NoMessageError /\ exists c, s' = with_consumer c s.
Proof.
  unfold Consumer_consume. intros H Hsig.
  apply bind_inv in H as [(m & s1 & H1 & H)|(e' & H1 & H)].
  - exfalso. revert H. unfold modify at 1. unfold bind at 1.
    intros H. apply bind_inv in H as [(a & s2 & H2 & H)|(e' & H2 & H)].
    + revert H. unfold gets. intros H; inversion H.
    + inversion H; subst. eapply handle_no_signal; eauto.
  - inversion H; subst e'. clear H. revert H1.
    unfold Consumer__poll_for_message, client_poll. run.
    destruct (next_poll _); intros H; inversion H; subst.
    + split; eauto.
    + destruct Hsig; discriminate.
Qed.

(** A consume call that raises one of the two signals has at most read
    the clock, moved the start of the time window and called the client. *)
Lemma consume_signal_state timeout consume_multiplier s e s' :
  TransactionalConsumer_consume timeout consume_multiplier s = (Raised e, s') ->
  control_signal e ->
  exists s1, window_only s s1 /\ (s' = s1 \/ exists c, s' = with_consumer c s1).
Proof.
  intros H Hsig.
  unfold TransactionalConsumer_consume, try_except in H.
  destruct (_keep_consuming consume_multiplier s) as [r s1] eqn:Hk.
  pose proof (keep_consuming_window _ _ _ _ Hk) as Hw.
  exists s1. split; [assumption|].
  destruct r as [[|]|e0].
  - rewrite (bind_returned _ _ _ _ _ Hk) in H.
    destruct (Consumer_consume _ timeout s1) as [[m|e2] s2] eqn:Hc; [discriminate|].
    destruct (decide (control_signal e2)) as [Hs2|Hn2].
    + destruct (consume_signal _ _ _ _ Hc Hs2) as [-> [c ->]].
      run. destruct (bool_decide _); inversion H; eauto.
    + assert (e = e2) as ->; [|contradiction].
      destruct e2; try now inversion H.
      exfalso. apply Hn2. now left.
  - rewrite (bind_returned _ _ _ _ _ Hk) in H. run. inversion H; auto.
  - rewrite (bind_raised _ _ _ _ _ Hk) in H.
    destruct e0; run; try destruct (bool_decide _); inversion H; auto.
Qed.

(** C9. A consume call of the transactional consumer that raises
    FinishedTransactionBatch or NoMessageError leaves the start offsets,
    the end offsets, the count of consumed messages, the list of kept
    messages and the held message as they were before the call. *)
Theorem consume_signal_keeps_batch timeout consume_multiplier s e s' :
  TransactionalConsumer_consume timeout consume_multiplier s = (Raised e, s') ->
  control_signal e ->
  _batch_offset_starts s' = _batch_offset_starts s /\
  _batch_offset_ends s' = _batch_offset_ends s /\
  _consume_message_count s' = _consume_message_count s /\
  _messages s' = _messages s /\
  message s' = message s.
Proof.
  intros H Hsig.
  destruct (consume_signal_state _ _ _ _ _ H Hsig) as (s1 & Hw & Hs').
  apply window_only_fields in Hw as (_ & Hm & _ & Hst & He & Hms & Hc & _).
  destruct Hs' as [->|[c ->]]; simpl; now rewrite Hm, Hst, He, Hms, Hc.
Qed.

(** *** A corrupt message *)

(** [Consumer._handle_consumed_message] raises ConsumeMessageError for
    the held message [m] exactly when reading its guid raised an
    AttributeError and the text of [m.error()] has the signature; nothing
    was written by then. *)
Lemma Consumer_handle_corrupt s text s' :
  Consumer__handle_consumed_message s = (Raised (ConsumeMessageError text), s') ->
  s' = s /\
  exists m why, message s = Some m /\
                get_guid_from_message m = AttributeFault why /\
                Py.contains headers_signature (str_error m) = true.
Proof.
  unfold Consumer__handle_consumed_message, held_message, call_helper,
    metrics_note, now, headers_signature.
  run. intros H. cases; eauto 10.
Qed.

Lemma handle_corrupt s text s' :
  TransactionalConsumer__handle_consumed_message s = (Raised (ConsumeMessageError text), s') ->
  s' = s.
Proof.
  unfold TransactionalConsumer__handle_consumed_message. intros H.
  apply bind_inv in H as [(a & s1 & H1 & H)|(e' & H1 & H)].
  - exfalso. revert H. unfold _mark_offset_start, _mark_offset_end, held_message.
    run. intros H. cases.
  - inversion H; subst. now apply Consumer_handle_corrupt in H1 as [-> _].
Qed.

(** C10. When a consume call of the transactional consumer raises
    ConsumeMessageError, the polled message [m] is the held message, and
    nothing was noted for it: the start and end offsets, the count and the
    list of kept messages are as before the call and the metrics manager
    received no call; [key()], [value()] and [headers()] then read [m]. *)
Theorem consume_corrupt_message timeout consume_multiplier s text s' :
  TransactionalConsumer_consume timeout consume_multiplier s
  = (Raised (ConsumeMessageError text), s') ->
  exists m,
    next_poll (_consumer s) = Delivered m /\
    message s' = Some m /\
    _batch_offset_starts s' = _batch_offset_starts s /\
    _batch_offset_ends s' = _batch_offset_ends s /\
    _consume_message_count s' = _consume_message_count s /\
    _messages s' = _messages s /\
    metrics_manager s' = metrics_manager s /\
    Consumer_key s' = (Returned (msg_key m), s') /\
    Consumer_value s' = (Returned (msg_value m), s') /\
    Consumer_headers s' = call_helper (parse_headers (msg_headers m)) s'.
Proof.
  intros H.
  unfold TransactionalConsumer_consume, try_except in H.
  destruct (_keep_consuming consume_multiplier s) as [r s1] eqn:Hk.
  pose proof (keep_consuming_window _ _ _ _ Hk) as Hw.
  apply window_only_fields in Hw as (Hcl & _ & Hmm & Hst & He & Hms & Hc & _).
  destruct r as [[|]|e0].
  2:{ rewrite (bind_returned _ _ _ _ _ Hk) in H. run. discriminate. }
  2:{ rewrite (bind_raised _ _ _ _ _ Hk) in H.
      destruct (keep_consuming_raises _ _ _ _ Hk) as [why ->]. run. discriminate. }
  rewrite (bind_returned _ _ _ _ _ Hk) in H.
  destruct (Consumer_consume _ timeout s1) as [[m|e2] s2] eqn:Hcons; [discriminate|].
  assert (e2 = ConsumeMessageError text /\ s2 = s') as [-> ->].
  { destruct e2; run; try destruct (bool_decide _); inversion H; auto. }
  clear H. unfold Consumer_consume in Hcons.
  apply bind_inv in Hcons as [(m & s2 & Hp & Hcons)|(e' & Hp & Hcons)].
  2:{ exfalso. inversion Hcons; subst e'. revert Hp.
      unfold Consumer__poll_for_message, client_poll. run.
      destruct (next_poll _); discriminate. }
  assert (next_poll (_consumer s) = Delivered m /\
          exists c, s2 = with_consumer c s1) as [Hpoll [c ->]].
  { revert Hp. unfold Consumer__poll_for_message, client_poll. run.
    rewrite <- Hcl. unfold next_poll at 1. simpl. fold (next_poll (_consumer s1)).
    destruct (next_poll (_consumer s1)); intros Hp; inversion Hp; eauto. }
  unfold modify at 1 in Hcons. unfold bind at 1 in Hcons.
  apply bind_inv in Hcons as [(a & s3 & Hh & Hcons)|(e' & Hh & Hcons)].
  { unfold gets in Hcons. discriminate. }
  inversion Hcons; subst e'. apply handle_corrupt in Hh. subst s'.
  exists m. simpl. repeat split; auto.
Qed.

(** *** Commit *)

(** The list [commit] hands to the producer holds, for each tracked
    (topic, partition), the end offset plus one, and nothing else. *)
Lemma offsets_to_commit_spec (ends : gmap string (gmap Z Z)) topic partition offset :
  (topic, partition, offset) ∈ offsets_to_commit ends <->
  tracked ends topic partition = Some (offset - 1).
Proof.
  unfold offsets_to_commit, tracked. rewrite list_elem_of_bind. split.
  - intros ([t ps] & Hin & Ht). apply elem_of_map_to_list in Ht.
    apply list_elem_of_fmap in Hin as ([p o] & Heq & Hp).
    apply elem_of_map_to_list in Hp. inversion Heq; subst.
    rewrite Ht. simpl. rewrite Hp. f_equal. lia.
  - intros H. destruct (ends !! topic) as [ps|] eqn:Ht; [|discriminate].
    simpl in H. exists (topic, ps). split.
    + apply list_elem_of_fmap. exists (partition, offset - 1). split.
      * f_equal. lia.
      * now apply elem_of_map_to_list.
    + now apply elem_of_map_to_list.
Qed.

Lemma offsets_to_commit_NoDup (ends : gmap string (gmap Z Z)) :
  NoDup (offsets_to_commit ends).
Proof.
  unfold offsets_to_commit. apply NoDup_bind.
  - intros [t1 ps1] [t2 ps2] [[t p] o] H1 H2 Hy1 Hy2.
    apply list_elem_of_fmap in Hy1 as ([p1 o1] & Heq1 & _).
    apply list_elem_of_fmap in Hy2 as ([p2 o2] & Heq2 & _).
    inversion Heq1; inversion Heq2; subst. subst.
    apply elem_of_map_to_list in H1, H2. congruence.
  - intros [t ps] _. apply NoDup_fmap_2; [|apply NoDup_map_to_list].
    intros [p1 o1] [p2 o2] Heq. inversion Heq. f_equal. lia.
  - apply NoDup_map_to_list.
Qed.

Lemma offsets_to_commit_one_per_key (ends : gmap string (gmap Z Z)) :
  NoDup (offset_key <$> offsets_to_commit ends).
Proof.
  apply NoDup_fmap_2_strong; [|apply offsets_to_commit_NoDup].
  intros [[t1 p1] o1] [[t2 p2] o2] H1 H2 Heq.
  unfold offset_key in Heq. simpl in Heq. inversion Heq; subst.
  apply offsets_to_commit_spec in H1, H2. f_equal.
  rewrite H1 in H2. inversion H2. lia.
Qed.

Lemma offsets_to_commit_empty : offsets_to_commit ∅ = [].
Proof. unfold offsets_to_commit. now rewrite map_to_list_empty. Qed.

(** What a commit that returned has done, for every list of offsets. *)
Lemma commit_returned p s p' s' :
  TransactionalConsumer_commit (p, s) = (Returned tt, (p', s')) ->
  let offsets := offsets_to_commit (_batch_offset_ends s) in
  transaction_calls p' =
    (transaction_calls p
       ++ (if bool_decide (offsets = []) then []
           else (if active_transaction p then [] else [BeginTransaction])
                  ++ [SendOffsetsToTransaction offsets (group_metadata (_consumer s))])
       ++ (if bool_decide (offsets = []) && negb (active_transaction p) then []
           else [CommitTransaction 30]))%list /\
  s' = finalized
         (if bool_decide (offsets = []) then s
          else with_consumer (called ConsumerGroupMetadata (_consumer s)) s).
Proof.
  unfold TransactionalConsumer_commit, _commit, _init_attrs, on_fst, on_snd,
    begin_transaction, send_offsets_to_transaction, commit_transaction, producer_do,
    client_consumer_group_metadata, client_note, finalized.
  run. intros H.
  destruct (bool_decide (offsets_to_commit (_batch_offset_ends s) = [])) eqn:Hoff;
    destruct (active_transaction p) eqn:Hact; simpl in *;
    cases; rewrite <- ?app_assoc, ?app_nil_r; auto;
    rewrite Hact in *; discriminate.
Qed.

(** A producer that refuses no call lets [commit] return. *)
Lemma commit_returns p s :
  (forall k, refuses p k = None) ->
  fst (TransactionalConsumer_commit (p, s)) = Returned tt.
Proof.
  intros Hok.
  unfold TransactionalConsumer_commit, _commit, _init_attrs, on_fst, on_snd,
    begin_transaction, send_offsets_to_transaction, commit_transaction, producer_do,
    client_consumer_group_metadata, client_note.
  run.
  destruct (bool_decide _); destruct (active_transaction p) eqn:Hact; simpl;
    repeat (rewrite ?Hok, ?Hact; simpl); reflexivity.
Qed.

(** [commit] does not write the start of the time window. *)
Lemma commit_keeps_start_time p s r p' s' :
  TransactionalConsumer_commit (p, s) = (r, (p', s')) ->
  _batch_time_elapse_start s' = _batch_time_elapse_start s.
Proof.
  unfold TransactionalConsumer_commit, _commit, _init_attrs, on_fst, on_snd,
    begin_transaction, send_offsets_to_transaction, commit_transaction, producer_do,
    client_consumer_group_metadata, client_note.
  run. intros H. cases.
Qed.

(** C1, as amended. A commit that returned, with at least one end offset
    tracked, made the producer take, after opening a transaction if none
    was open, one list of offsets and then the commit of the transaction;
    the list has exactly one entry for each tracked (topic, partition),
    its end offset plus one.  On return the start and end offsets are
    empty, the count is 0, no message is kept or held, and
    [pending_commits] is false; the start of the time window is as it was
    before the call. *)
Theorem commit_attaches_offsets p s p' s' :
  (exists topic partition offset,
      tracked (_batch_offset_ends s) topic partition = Some offset) ->
  TransactionalConsumer_commit (p, s) = (Returned tt, (p', s')) ->
  let offsets := offsets_to_commit (_batch_offset_ends s) in
  transaction_calls p' =
    (transaction_calls p
       ++ (if active_transaction p then [] else [BeginTransaction])
       ++ [SendOffsetsToTransaction offsets (group_metadata (_consumer s));
           CommitTransaction 30])%list /\
  (forall topic partition offset,
      (topic, partition, offset) ∈ offsets <->
      exists end_offset, tracked (_batch_offset_ends s) topic partition = Some end_offset /\
                         offset = end_offset + 1) /\
  NoDup (offset_key <$> offsets) /\
  _batch_offset_starts s' = ∅ /\
  _batch_offset_ends s' = ∅ /\
  _consume_message_count s' = 0 /\
  _messages s' = [] /\
  message s' = None /\
  pending_commits s' = false /\
  _batch_time_elapse_start s' = _batch_time_elapse_start s.
Proof.
  intros (topic0 & partition0 & offset0 & Htracked) Hrun offsets.
  assert (Hne : offsets <> []).
  { intros Hnil.
    assert (Hin : (topic0, partition0, offset0 + 1) ∈ offsets).
    { apply offsets_to_commit_spec. rewrite Htracked. f_equal. lia. }
    rewrite Hnil in Hin. now apply elem_of_nil in Hin. }
  apply commit_returned in Hrun as [Hcalls ->]. fold offsets in Hcalls.
  rewrite bool_decide_eq_false_2 in Hcalls by assumption. simpl in Hcalls.
  split.
  { rewrite Hcalls. destruct (active_transaction p); reflexivity. }
  split.
  { intros topic partition offset. unfold offsets.
    rewrite offsets_to_commit_spec. split.
    - intros H. exists (offset - 1). split; [assumption|lia].
    - intros (e & H & ->). rewrite H. f_equal. lia. }
  split; [apply offsets_to_commit_one_per_key|].
  now destruct (bool_decide _).
Qed.

(** C8. [commit] with no end offset tracked and a producer without an
    open transaction makes no call to the producer and none to the
    client; it returns with no message held, the offsets, the count and
    the kept messages cleared and [pending_commits] false.  Calling it
    again changes nothing more. *)
Theorem commit_nothing_tracked p s :
  _batch_offset_ends s = ∅ ->
  active_transaction p = false ->
  let after := TransactionalConsumer_commit (p, s) in
  let s' := snd (snd after) in
  fst after = Returned tt /\
  fst (snd after) = p /\
  _consumer s' = _consumer s /\
  message s' = None /\
  _batch_offset_starts s' = ∅ /\
  _batch_offset_ends s' = ∅ /\
  _consume_message_count s' = 0 /\
  _messages s' = [] /\
  pending_commits s' = false /\
  TransactionalConsumer_commit (p, s') = (Returned tt, (p, s')).
Proof.
  intros Hends Hact.
  assert (Hrun : forall s0, _batch_offset_ends s0 = ∅ ->
                   TransactionalConsumer_commit (p, s0) = (Returned tt, (p, finalized s0))).
  { intros s0 H0.
    unfold TransactionalConsumer_commit, _commit, _init_attrs, on_fst, on_snd, finalized.
    run. rewrite H0, offsets_to_commit_empty. simpl. run. now rewrite Hact. }
  simpl. rewrite (Hrun s Hends). simpl. repeat split.
  now rewrite (Hrun (finalized s)).
Qed.

(** *** A consume call that returns *)

Lemma handle_returned s s' :
  TransactionalConsumer__handle_consumed_message s = (Returned tt, s') ->
  exists m, message s = Some m /\ noted m s s'.
Proof.
  unfold TransactionalConsumer__handle_consumed_message, Consumer__handle_consumed_message,
    _mark_offset_start, _mark_offset_end, held_message, call_helper, metrics_note, now, noted.
  run. intros H. cases; eexists; (split; [reflexivity|]); simpl; repeat split; congruence.
Qed.

Lemma consume_returned timeout consume_multiplier s r s' :
  TransactionalConsumer_consume timeout consume_multiplier s = (Returned r, s') ->
  exists m, next_poll (_consumer s) = Delivered m /\ r = Some m /\ noted m s s'.
Proof.
  intros H. unfold TransactionalConsumer_consume, try_except in H.
  destruct (_keep_consuming consume_multiplier s) as [k s1] eqn:Hk.
  pose proof (keep_consuming_window _ _ _ _ Hk) as Hw.
  destruct k as [[|]|e0].
  2:{ rewrite (bind_returned _ _ _ _ _ Hk) in H. run. discriminate. }
  2:{ rewrite (bind_raised _ _ _ _ _ Hk) in H.
      destruct (keep_consuming_raises _ _ _ _ Hk) as [why ->]. run. discriminate. }
  rewrite (bind_returned _ _ _ _ _ Hk) in H.
  destruct (Consumer_consume _ timeout s1) as [[r'|e2] s2] eqn:Hcons.
  2:{ destruct e2; run; try destruct (bool_decide _); discriminate. }
  inversion H; subst r' s2. clear H.
  unfold Consumer_consume in Hcons.
  apply bind_inv in Hcons as [(m & s2 & Hp & Hcons)|(e' & _ & Hcons)]; [|discriminate].
  assert (next_poll (_consumer s1) = Delivered m /\
          exists c, s2 = with_consumer c s1) as [Hpoll [c ->]].
  { revert Hp. unfold Consumer__poll_for_message, client_poll. run.
    unfold next_poll at 1. simpl. fold (next_poll (_consumer s1)).
    destruct (next_poll (_consumer s1)); intros Hp; inversion Hp; eauto. }
  unfold modify at 1 in Hcons. unfold bind at 1 in Hcons.
  apply bind_inv in Hcons as [([] & s3 & Hh & Hcons)|(e' & _ & Hcons)]; [|discriminate].
  unfold gets in Hcons. inversion Hcons; subst r s3. clear Hcons.
  apply handle_returned in Hh as (m' & Hm' & Hn). simpl in Hm'. inversion Hm'; subst m'.
  exists m. rewrite Hw in Hpoll. simpl in Hpoll. split; [assumption|].
  destruct Hn as (Hn1 & Hn2 & Hn3 & Hn4 & Hn5 & Hn6 & Hn7 & Hn8).
  rewrite Hn1. split; [reflexivity|].
  unfold noted. rewrite Hn1, Hn2, Hn3, Hn4, Hn5, Hn6, Hn7, Hn8, Hw. simpl.
  repeat split.
Qed.

(** *** The count bound *)

Lemma consumed_in_a_row_count mult n s s' :
  consumed_in_a_row mult n s s' ->
  _consume_message_count s' = _consume_message_count s + Z.of_nat n /\
  _consume_max_count s' = _consume_max_count s.
Proof.
  induction 1 as [s|n s s1 timeout r s2 _ [IHc IHm] Hc].
  - split; [lia|reflexivity].
  - apply consume_returned in Hc as (m & _ & _ & Hn).
    destruct Hn as (_ & _ & _ & Hcount & _ & Hmax & _).
    rewrite Hcount, Hmax, IHc, IHm. split; [lia|reflexivity].
Qed.

Lemma count_exhausted timeout consume_multiplier s n :
  _consume_max_count s = Some n ->
  n <> 0 ->
  n * consume_multiplier <= _consume_message_count s ->
  TransactionalConsumer_consume timeout consume_multiplier s
  = (Raised FinishedTransactionBatch, s).
Proof.
  intros Hmax Hn Hcount.
  unfold TransactionalConsumer_consume, _keep_consuming, _max_consume_count_continue.
  run. rewrite Hmax. simpl.
  destruct (n =? 0) eqn:E; [apply Z.eqb_eq in E; contradiction|]. simpl.
  destruct (_consume_message_count s <? n * consume_multiplier) eqn:E2.
  - apply Z.ltb_lt in E2. lia.
  - reflexivity.
Qed.

(** C3, as amended. With [_consume_max_count] set to a number other than
    0, a consume call made when the count has reached that number times
    the multiplier raises FinishedTransactionBatch and leaves the object,
    its client and its clock untouched: there is no poll and no reading of
    the time.  So with a bound of 5 the consume call that follows five
    calls which each returned a message, counted from 0 with multiplier 1,
    raises FinishedTransactionBatch without a call to the client. *)
Theorem consume_count_exhausted :
  (forall timeout consume_multiplier s n,
      _consume_max_count s = Some n ->
      n <> 0 ->
      n * consume_multiplier <= _consume_message_count s ->
      TransactionalConsumer_consume timeout consume_multiplier s
      = (Raised FinishedTransactionBatch, s)) /\
  (forall timeout s s5,
      _consume_max_count s = Some 5 ->
      _consume_message_count s = 0 ->
      consumed_in_a_row 1 5 s s5 ->
      TransactionalConsumer_consume timeout 1 s5 = (Raised FinishedTransactionBatch, s5)).
Proof.
  split.
  - apply count_exhausted.
  - intros timeout s s5 Hmax H0 Hrun.
    apply consumed_in_a_row_count in Hrun as [Hc Hm].
    apply count_exhausted with (n := 5); [congruence|lia|lia].
Qed.

(** *** The time bound *)

Lemma truthy_Q_nonzero q : ~ (q == 0)%Q -> Py.truthy_Q (Some q) = true.
Proof.
  intros H. unfold Py.truthy_Q. destruct (Qeq_bool q 0) eqn:E; [|reflexivity].
  apply Qeq_bool_iff in E. contradiction.
Qed.

Lemma ltb_ge x y : (y <= x)%Q -> Py.ltb x y = false.
Proof. intros H. unfold Py.ltb. apply Qle_bool_iff in H. now rewrite H. Qed.

(** the time test on a window that has no start yet: the start is the
    reading taken first, the elapsed time runs from it to the second *)
Lemma time_test_stamps s mx :
  _consume_max_time_secs s = Some mx ->
  ~ (mx == 0)%Q ->
  _batch_time_elapse_start s = None ->
  let t1 := wall_clock s (clock_reads s) in
  let t2 := wall_clock s (S (clock_reads s)) in
  _max_consume_time_continue s
  = (Returned (Py.ltb (t2 - t1) mx),
     with_start_time (if Py.ltb (t2 - t1) mx then Some t1 else None)
       (with_clock_reads (S (S (clock_reads s))) s)).
Proof.
  intros Hmax Hmx Hstart. unfold _max_consume_time_continue, _set_batch_start_time, now.
  run. rewrite Hmax. simpl. fold (Py.truthy_Q (Some mx)).
  rewrite (truthy_Q_nonzero _ Hmx), Hstart. simpl.
  now destruct (Py.ltb _ mx).
Qed.

(** C6, as amended. With [_consume_max_time_secs] set to a number other
    than 0, a start of the window other than 0 stamped, and the count
    test passing, a consume call whose reading of the clock is at or past
    the start plus the bound raises FinishedTransactionBatch without a
    poll and leaves the start of the window unset.  The time test of a
    later call that finds it unset stamps the reading it takes first, and
    measures the elapsed time from there. *)
Theorem consume_time_exhausted timeout consume_multiplier s mx t0 :
  _consume_max_time_secs s = Some mx ->
  ~ (mx == 0)%Q ->
  _batch_time_elapse_start s = Some t0 ->
  ~ (t0 == 0)%Q ->
  fst (_max_consume_count_continue consume_multiplier s) = Returned true ->
  (mx <= wall_clock s (clock_reads s) - t0)%Q ->
  let s' := with_start_time None (with_clock_reads (S (clock_reads s)) s) in
  TransactionalConsumer_consume timeout consume_multiplier s
  = (Raised FinishedTransactionBatch, s') /\
  _batch_time_elapse_start s' = None /\
  _consumer s' = _consumer s /\
  (forall s2,
      _consume_max_time_secs s2 = Some mx ->
      _batch_time_elapse_start s2 = None ->
      let t1 := wall_clock s2 (clock_reads s2) in
      let t2 := wall_clock s2 (S (clock_reads s2)) in
      _max_consume_time_continue s2
      = (Returned (Py.ltb (t2 - t1) mx),
         with_start_time (if Py.ltb (t2 - t1) mx then Some t1 else None)
           (with_clock_reads (S (S (clock_reads s2))) s2))).
Proof.
  intros Hmax Hmx Hstart Ht0 Hcount Helapsed s'.
  split; [|split; [reflexivity|split; [reflexivity|]]].
  - destruct (max_consume_count_continue_pure consume_multiplier s) as [Hs _].
    destruct (_max_consume_count_continue consume_multiplier s) as [r0 s0] eqn:E.
    simpl in Hs, Hcount. subst r0 s0.
    assert (Hk : _keep_consuming consume_multiplier s = (Returned false, s')).
    { unfold _keep_consuming. rewrite (bind_returned _ _ _ _ _ E).
      unfold _max_consume_time_continue, now. run.
      rewrite Hmax. simpl. fold (Py.truthy_Q (Some mx)).
      rewrite (truthy_Q_nonzero _ Hmx), Hstart. simpl.
      fold (Py.truthy_Q (Some t0)). rewrite (truthy_Q_nonzero _ Ht0). simpl.
      rewrite Hstart. rewrite (ltb_ge _ _ Helapsed). reflexivity. }
    unfold TransactionalConsumer_consume, try_except.
    rewrite (bind_returned _ _ _ _ _ Hk). reflexivity.
  - intros s2 Hmax2 Hstart2. now apply time_test_stamps.
Qed.

(** *** What handling a message raises *)

Ltac settle :=
  repeat split; intros;
  repeat match goal with
         | H : exists _, _ |- _ => destruct H
         | H : _ /\ _ |- _ => destruct H
         end;
  try discriminate; try congruence; eauto.

(** C7, as amended. [Consumer._handle_consumed_message] raises
    ConsumeMessageError exactly when reading the guid of the held message
    fails on an attribute and the text of the message's error has the
    signature "object has no attribute 'headers'".  A failure on an
    attribute without the signature is dropped and the call returns; any
    other exception raised while the guid is read reaches the caller as it
    is; a message whose guid can be read is handled without a look at its
    error. *)
Theorem handle_consumed_message_raises s m :
  message s = Some m ->
  let r := fst (Consumer__handle_consumed_message s) in
  ((exists text, r = Raised (ConsumeMessageError text)) <->
   (exists why, get_guid_from_message m = AttributeFault why) /\
   Py.contains headers_signature (str_error m) = true) /\
  (forall why, get_guid_from_message m = AttributeFault why ->
               Py.contains headers_signature (str_error m) = false ->
               r = Returned tt) /\
  (forall why, get_guid_from_message m = OtherFault why ->
               r = Raised (ExternalError why)) /\
  (forall guid, get_guid_from_message m = Gives guid -> r = Returned tt).
Proof.
  intros Hm. unfold headers_signature.
  unfold Consumer__handle_consumed_message, held_message, call_helper, metrics_note, now.
  run. rewrite Hm. simpl.
  destruct (get_guid_from_message m) as [guid|why|why] eqn:Hg; simpl.
  - destruct (has_metrics s) eqn:Hmet; simpl.
    + assert (Hmet' : forall k n, has_metrics (with_metrics
                 (option_map (fun l : list metric_call => (l ++ [k])%list) (metrics_manager s))
                 (with_clock_reads n s)) = true).
      { intros k n. unfold has_metrics in *. simpl. now destruct (metrics_manager s). }
      rewrite Hmet'. simpl. rewrite Hm. simpl. settle.
    + rewrite Hmet. simpl. settle.
  - rewrite Hm. simpl.
    destruct (Py.contains _ (str_error m)) eqn:Hc; simpl.
    + settle.
    + destruct (has_metrics s) eqn:Hmet; simpl; rewrite ?Hm; simpl; settle.
  - settle.
Qed.

(** *** Rollback *)

Lemma for_each_skips {S A} (l : list A) (body : A -> M S unit) s :
  (forall x, x ∈ l -> body x s = (Returned tt, s)) ->
  for_each l body s = (Returned tt, s).
Proof.
  induction l as [|x l IH]; intros H; simpl; [reflexivity|].
  rewrite (bind_returned _ _ _ _ _ (H x (list_elem_of_here _ _))).
  apply IH. intros y Hy. apply H. now apply list_elem_of_further.
Qed.

Lemma for_each_raises {S A} (l : list A) (body : A -> M S unit) s e :
  (forall x, x ∈ l -> body x s = (Returned tt, s) \/ body x s = (Raised e, s)) ->
  (exists x, x ∈ l /\ body x s = (Raised e, s)) ->
  for_each l body s = (Raised e, s).
Proof.
  induction l as [|x l IH]; intros Hall (y & Hy & Hraise); simpl.
  - now apply elem_of_nil in Hy.
  - destruct (Hall x (list_elem_of_here _ _)) as [Hx|Hx].
    + rewrite (bind_returned _ _ _ _ _ Hx). apply IH.
      * intros z Hz. apply Hall. now apply list_elem_of_further.
      * apply elem_of_cons in Hy as [->|Hy]; [congruence|eauto].
    + now rewrite (bind_raised _ _ _ _ _ Hx).
Qed.

(** [partition in assignments.get(topic, [])] holds exactly for the
    TopicPartitions the client lists. *)
Lemma in_partition_assignment (assignments : list (string * Z)) topic partition :
  partition ∈ default [] (partition_assignment assignments !! topic) <->
  (topic, partition) ∈ assignments.
Proof.
  unfold partition_assignment.
  set (entry := fun t : string =>
                  (t, snd <$> filter (fun obj : string * Z => fst obj = t) assignments)).
  set (topics := elements (list_to_set (fst <$> assignments) : gset string)).
  assert (Hnodup : NoDup ((entry <$> topics).*1)).
  { rewrite <- list_fmap_compose. unfold entry, compose. simpl.
    rewrite list_fmap_id. apply NoDup_elements. }
  assert (Hparts : forall l : list (string * Z), partition ∈ snd <$> filter (fun obj : string * Z => fst obj = topic) l
                             <-> (topic, partition) ∈ l).
  { intros l. rewrite list_elem_of_fmap. split.
    - intros ([t p] & -> & Hin). apply list_elem_of_filter in Hin as [Ht Hin].
      simpl in Ht. now subst.
    - intros Hin. exists (topic, partition). split; [reflexivity|].
      apply list_elem_of_filter. now split. }
  destruct (list_to_map (entry <$> topics) !! topic) as [ps|] eqn:Hl.
  - apply elem_of_list_to_map in Hl; [|assumption].
    apply list_elem_of_fmap in Hl as (t & Heq & _). inversion Heq; subst. simpl.
    apply Hparts.
  - simpl. split; [intros H; now apply elem_of_nil in H|].
    intros Hin. exfalso.
    apply not_elem_of_list_to_map in Hl. apply Hl.
    rewrite <- list_fmap_compose. unfold entry, compose. simpl. rewrite list_fmap_id.
    apply elem_of_elements, elem_of_list_to_set, list_elem_of_fmap.
    now exists (topic, partition).
Qed.

(** The lookup of [self.consumer] fails: the instance has no attribute of
    that name, and the wrapped client has none either. *)
Lemma self_consumer_raises s :
  self_consumer s
  = (Raised (AttributeError "'DeserializingConsumer' object has no attribute 'consumer'"), s).
Proof. reflexivity. Qed.

(** What [rollback_consumption] does.  When a tracked start offset is for
    a partition the client still lists, the call raises the
    AttributeError of [self.consumer] as soon as it gets to one: the
    client has been asked for its assignment and nothing else, and the
    batch is as it was.  Otherwise the call returns, with the batch
    cleared.  In neither case is there a seek. *)
Lemma rollback_consumption_outcome s :
  let asked := with_consumer (called Assignment (_consumer s)) s in
  (start_assigned s ->
   rollback_consumption s
   = (Raised (AttributeError "'DeserializingConsumer' object has no attribute 'consumer'"),
      asked)) /\
  (~ start_assigned s ->
   rollback_consumption s
   = (Returned tt,
      with_count 0 (with_messages [] (with_ends ∅ (with_starts ∅ asked))))).
Proof.
  intros asked.
  set (asg := partition_assignment (assigned (_consumer s))).
  set (inner := fun (topic : string) '((partition, offset) : Z * Z) =>
     when (bool_decide (partition ∈ default [] (asg !! topic)))
       (consumer <- self_consumer ;;
        seek <- getattribute consumer "seek" ;;
        invoke seek (Seek topic partition offset) ;;
        consumer <- self_consumer ;;
        position <- getattribute consumer "position" ;;
        invoke position (Position topic partition)) : Method unit).
  set (outer := fun '((topic, partitions) : string * gmap Z Z) =>
     for_each (map_to_list partitions) (inner topic)).
  assert (Hrun : rollback_consumption s
                 = (for_each (map_to_list (_batch_offset_starts s)) outer ;; _init_attrs) asked).
  { reflexivity. }
  set (e := AttributeError "'DeserializingConsumer' object has no attribute 'consumer'").
  assert (Hinner : forall topic po,
             inner topic po asked
             = if bool_decide ((topic, po.1) ∈ assigned (_consumer s))
               then (Raised e, asked) else (Returned tt, asked)).
  { intros topic [p o]. unfold inner, asg, when. simpl.
    rewrite (bool_decide_ext _ _ (in_partition_assignment _ topic p)).
    now destruct (bool_decide _). }
  assert (Houter : forall topic partitions,
             _batch_offset_starts s !! topic = Some partitions ->
             outer (topic, partitions) asked
             = if bool_decide (exists p o, partitions !! p = Some o /\
                                           (topic, p) ∈ assigned (_consumer s))
               then (Raised e, asked) else (Returned tt, asked)).
  { intros topic partitions _. unfold outer. case_bool_decide as Hd.
    - destruct Hd as (p & o & Hp & Hin).
      apply for_each_raises.
      + intros po _. rewrite Hinner. destruct (bool_decide _); auto.
      + exists (p, o). split; [now apply elem_of_map_to_list|].
        rewrite Hinner. simpl. now rewrite bool_decide_eq_true_2.
    - apply for_each_skips. intros [p o] Hpo. rewrite Hinner. simpl.
      rewrite bool_decide_eq_false_2; [reflexivity|].
      intros Hin. apply Hd. exists p, o.
      split; [now apply elem_of_map_to_list|assumption]. }
  rewrite Hrun. split.
  - intros (topic & partition & offset & Ht & Hin).
    unfold tracked in Ht.
    destruct (_batch_offset_starts s !! topic) as [partitions|] eqn:Hl; [|discriminate].
    simpl in Ht.
    apply bind_raised. apply for_each_raises.
    + intros [t ps] Hx. apply elem_of_map_to_list in Hx.
      rewrite (Houter _ _ Hx). destruct (bool_decide _); auto.
    + exists (topic, partitions). split; [now apply elem_of_map_to_list|].
      rewrite (Houter _ _ Hl). rewrite bool_decide_eq_true_2; [reflexivity|eauto].
  - intros Hnone.
    erewrite bind_returned; [reflexivity|].
    apply for_each_skips. intros [t ps] Hx. apply elem_of_map_to_list in Hx.
    rewrite (Houter _ _ Hx). rewrite bool_decide_eq_false_2; [reflexivity|].
    intros (p & o & Hp & Hin). apply Hnone. exists t, p, o.
    split; [|assumption]. unfold tracked. now rewrite Hx.
Qed.

(** *** The offsets tracked over a batch *)

Lemma tracked_mark_start topic partition offset d topic' partition' :
  tracked (mark_start topic partition offset d) topic' partition'
  = match tracked d topic' partition' with
    | Some o => Some o
    | None => if decide ((topic, partition) = (topic', partition')) then Some offset else None
    end.
Proof.
  unfold mark_start, tracked.
  destruct (decide (topic = topic')) as [<-|Ht].
  - destruct (d !! topic) as [ps|] eqn:Hd; simpl.
    + rewrite Hd. simpl.
      destruct (decide (partition = partition')) as [<-|Hp].
      * destruct (ps !! partition) eqn:Hps; simpl.
        -- now rewrite Hd; simpl; rewrite Hps.
        -- rewrite lookup_insert_eq. simpl. rewrite lookup_insert_eq.
           now rewrite decide_True.
      * destruct (ps !! partition) eqn:Hps; simpl.
        -- rewrite Hd. simpl. destruct (ps !! partition'); [reflexivity|].
           rewrite decide_False; [reflexivity|congruence].
        -- rewrite lookup_insert_eq. simpl. rewrite lookup_insert_ne by assumption.
           destruct (ps !! partition'); [reflexivity|].
           rewrite decide_False; [reflexivity|congruence].
    + rewrite lookup_insert_eq. simpl. rewrite lookup_empty.
      rewrite lookup_insert_eq. simpl.
      destruct (decide (partition = partition')) as [<-|Hp].
      * rewrite lookup_insert_eq. now rewrite decide_True.
      * rewrite lookup_insert_ne by assumption. rewrite lookup_empty.
        rewrite decide_False; [reflexivity|congruence].
  - assert (Hother : forall (d' : gmap string (gmap Z Z)) v,
               <[topic := v]> d' !! topic' = d' !! topic').
    { intros. now apply lookup_insert_ne. }
    destruct (d !! topic) as [ps|] eqn:Hd; simpl.
    + rewrite Hd. simpl. destruct (ps !! partition); rewrite ?Hother;
        (destruct (d !! topic' ≫= (.!! partition')); [reflexivity|]);
        rewrite decide_False; congruence.
    + rewrite lookup_insert_eq. simpl. rewrite lookup_empty. rewrite !Hother.
      destruct (d !! topic' ≫= (.!! partition')); [reflexivity|].
      rewrite decide_False; congruence.
Qed.

Lemma tracked_mark_end topic partition offset d topic' partition' :
  tracked (mark_end topic partition offset d) topic' partition'
  = if decide ((topic, partition) = (topic', partition')) then Some offset
    else tracked d topic' partition'.
Proof.
  unfold mark_end, tracked.
  destruct (decide (topic = topic')) as [<-|Ht].
  - rewrite lookup_insert_eq. simpl.
    destruct (decide (partition = partition')) as [<-|Hp].
    + rewrite lookup_insert_eq. now rewrite decide_True.
    + rewrite lookup_insert_ne by assumption.
      rewrite decide_False by congruence.
      destruct (d !! topic) as [ps|] eqn:Hd; simpl.
      * now rewrite Hd.
      * rewrite lookup_insert_eq. simpl. now rewrite lookup_empty.
  - rewrite lookup_insert_ne by assumption.
    rewrite decide_False by congruence.
    destruct (d !! topic); [reflexivity|]. now rewrite lookup_insert_ne.
Qed.

(** A consume call that raises, whatever it raises, has noted nothing in
    the two dicts of offsets. *)
Lemma handle_raised_keeps s e s' :
  TransactionalConsumer__handle_consumed_message s = (Raised e, s') ->
  _batch_offset_starts s' = _batch_offset_starts s /\
  _batch_offset_ends s' = _batch_offset_ends s.
Proof.
  unfold TransactionalConsumer__handle_consumed_message, Consumer__handle_consumed_message,
    _mark_offset_start, _mark_offset_end, held_message, call_helper, metrics_note, now.
  run. intros H. cases; auto.
Qed.

Lemma consume_raised_keeps timeout consume_multiplier s e s' :
  TransactionalConsumer_consume timeout consume_multiplier s = (Raised e, s') ->
  _batch_offset_starts s' = _batch_offset_starts s /\
  _batch_offset_ends s' = _batch_offset_ends s.
Proof.
  intros H.
  destruct (decide (control_signal e)) as [Hsig|Hno].
  { destruct (consume_signal_state _ _ _ _ _ H Hsig) as (s1 & Hw & Hs').
    apply window_only_fields in Hw as (_ & _ & _ & Hst & He & _).
    destruct Hs' as [->|[c ->]]; simpl; now rewrite Hst, He. }
  unfold TransactionalConsumer_consume, try_except in H.
  destruct (_keep_consuming consume_multiplier s) as [k s1] eqn:Hk.
  pose proof (keep_consuming_window _ _ _ _ Hk) as Hw.
  apply window_only_fields in Hw as (_ & _ & _ & Hst & He & _).
  destruct k as [[|]|e0].
  2:{ rewrite (bind_returned _ _ _ _ _ Hk) in H. run. inversion H; subst. auto. }
  2:{ rewrite (bind_raised _ _ _ _ _ Hk) in H.
      destruct (keep_consuming_raises _ _ _ _ Hk) as [why ->]. run.
      inversion H; subst. auto. }
  rewrite (bind_returned _ _ _ _ _ Hk) in H.
  destruct (Consumer_consume _ timeout s1) as [[r'|e2] s2] eqn:Hcons; [discriminate|].
  assert (e2 = e /\ s2 = s') as [-> ->].
  { destruct e2; run; try destruct (bool_decide _); inversion H; subst; auto;
      exfalso; apply Hno; unfold control_signal; auto. }
  clear H. unfold Consumer_consume in Hcons.
  apply bind_inv in Hcons as [(m & s2 & Hp & Hcons)|(e' & Hp & Hcons)].
  - assert (exists c, s2 = with_consumer c s1) as [c ->].
    { revert Hp. unfold Consumer__poll_for_message, client_poll. run.
      destruct (next_poll _); intros Hp; inversion Hp; eauto. }
    unfold modify at 1 in Hcons. unfold bind at 1 in Hcons.
    apply bind_inv in Hcons as [(a & s3 & Hh & Hcons)|(e' & Hh & Hcons)].
    { unfold gets in Hcons. discriminate. }
    inversion Hcons; subst e'. apply handle_raised_keeps in Hh as [Hs1 Hs2].
    simpl in Hs1, Hs2. split; congruence.
  - inversion Hcons; subst e'. revert Hp.
    unfold Consumer__poll_for_message, client_poll. run.
    destruct (next_poll _); intros Hp; inversion Hp; subst; simpl; auto.
Qed.

Lemma offsets_seen_snoc topic partition l m :
  offsets_seen topic partition (l ++ [m])
  = (offsets_seen topic partition l
       ++ if decide ((msg_topic m, msg_partition m) = (topic, partition))
          then [msg_offset m] else [])%list.
Proof.
  unfold offsets_seen. rewrite filter_app, fmap_app. f_equal.
  rewrite filter_cons, filter_nil.
  destruct (decide (msg_topic m = topic /\ msg_partition m = partition)) as [[-> ->]|Hn].
  - now rewrite decide_True.
  - rewrite decide_False; [reflexivity|]. intros Heq. inversion Heq. auto.
Qed.

Lemma batch_calls_tracking s l s' :
  batch_calls s l s' ->
  forall topic partition,
    tracked (_batch_offset_starts s') topic partition
    = match tracked (_batch_offset_starts s) topic partition with
      | Some o => Some o
      | None => head (offsets_seen topic partition l)
      end /\
    tracked (_batch_offset_ends s') topic partition
    = match last (offsets_seen topic partition l) with
      | Some o => Some o
      | None => tracked (_batch_offset_ends s) topic partition
      end.
Proof.
  induction 1 as [s|s l s1 timeout mult m s2 _ IH Hc|s l s1 timeout mult e s2 _ IH Hc];
    intros topic partition.
  - simpl. now destruct (tracked (_batch_offset_starts s) topic partition).
  - destruct (IH topic partition) as [IHs IHe].
    apply consume_returned in Hc as (m' & _ & Hm' & Hn). inversion Hm'; subst m'.
    destruct Hn as (_ & Hs & He & _).
    rewrite Hs, He, tracked_mark_start, tracked_mark_end, IHs, IHe, offsets_seen_snoc.
    rewrite head_app, last_app.
    destruct (decide ((msg_topic m, msg_partition m) = (topic, partition))); simpl;
      destruct (tracked (_batch_offset_starts s) topic partition);
      destruct (head (offsets_seen topic partition l)); auto.
  - destruct (IH topic partition) as [IHs IHe].
    apply consume_raised_keeps in Hc as [Hs He]. now rewrite Hs, He.
Qed.

Lemma sorted_head_last (l : list Z) a b :
  StronglySorted Z.le l -> head l = Some a -> last l = Some b -> a <= b.
Proof.
  intros Hsorted Hh Hl. apply head_Some in Hh as [l' ->].
  apply StronglySorted_cons in Hsorted as [Hall _].
  rewrite last_cons in Hl. destruct (last l') as [y|] eqn:Hy.
  - inversion Hl; subst y. apply last_Some_elem_of in Hy.
    rewrite Forall_forall in Hall. auto.
  - inversion Hl. lia.
Qed.

Lemma sorted_last_app (l1 l2 : list Z) b b' :
  StronglySorted Z.le (l1 ++ l2) -> last l1 = Some b -> last (l1 ++ l2) = Some b' -> b <= b'.
Proof.
  intros Hsorted H1 H2. rewrite last_app in H2.
  destruct (last l2) as [y|] eqn:Hy.
  - inversion H2; subst y.
    eapply StronglySorted_app_1_elem_of; eauto using last_Some_elem_of.
  - rewrite H1 in H2. inversion H2. lia.
Qed.

(** C4, as amended. Take a batch that starts with nothing tracked, the
    messages [l] its consume calls returned up to some point and the
    messages [l2] they returned from there on, and one (topic,
    partition).  The tracked start offset is the offset of the first of
    these messages of that partition and the tracked end offset that of
    the last one; a start offset once tracked stays as it is.  When the
    offsets of the partition come in non-decreasing order, the end offset
    is at least the start offset and never goes down. *)
Theorem batch_offsets_tracked s l s' l2 s'' topic partition :
  _batch_offset_starts s = ∅ ->
  _batch_offset_ends s = ∅ ->
  batch_calls s l s' ->
  batch_calls s' l2 s'' ->
  tracked (_batch_offset_starts s') topic partition = head (offsets_seen topic partition l) /\
  tracked (_batch_offset_ends s') topic partition = last (offsets_seen topic partition l) /\
  (forall a, tracked (_batch_offset_starts s') topic partition = Some a ->
             tracked (_batch_offset_starts s'') topic partition = Some a) /\
  (StronglySorted Z.le (offsets_seen topic partition (l ++ l2)) ->
   (forall a b, tracked (_batch_offset_starts s') topic partition = Some a ->
                tracked (_batch_offset_ends s') topic partition = Some b ->
                a <= b) /\
   (forall b b', tracked (_batch_offset_ends s') topic partition = Some b ->
                 tracked (_batch_offset_ends s'') topic partition = Some b' ->
                 b <= b')).
Proof.
  intros Hs0 He0 Hrun1 Hrun2.
  destruct (batch_calls_tracking _ _ _ Hrun1 topic partition) as [Hs1 He1].
  destruct (batch_calls_tracking _ _ _ Hrun2 topic partition) as [Hs2 He2].
  assert (Hnone : forall d : gmap string (gmap Z Z), d = ∅ -> tracked d topic partition = None).
  { intros d ->. unfold tracked. now rewrite lookup_empty. }
  rewrite (Hnone _ Hs0) in Hs1. rewrite (Hnone _ He0) in He1.
  assert (He1' : tracked (_batch_offset_ends s') topic partition
                 = last (offsets_seen topic partition l)).
  { rewrite He1. now destruct (last _). }
  split; [assumption|]. split; [assumption|]. split.
  { intros a Ha. now rewrite Hs2, Ha. }
  intros Hsorted.
  assert (Happ : offsets_seen topic partition (l ++ l2)
                 = (offsets_seen topic partition l ++ offsets_seen topic partition l2)%list).
  { unfold offsets_seen. now rewrite filter_app, fmap_app. }
  rewrite Happ in Hsorted. split.
  - intros a b Ha Hb. rewrite Hs1 in Ha. rewrite He1' in Hb.
    apply StronglySorted_app_1_l in Hsorted. eapply sorted_head_last; eauto.
  - intros b b' Hb Hb'. rewrite He1' in Hb.
    eapply sorted_last_app; eauto.
    rewrite last_app. rewrite He2 in Hb'.
    destruct (last (offsets_seen topic partition l2)); [assumption|].
    now rewrite He1' in Hb'.
Qed.


(** *** The shape of a consume call *)

(** [Consumer.consume]: one poll, and the handling of what it delivered. *)
Lemma Consumer_consume_shape handler timeout s :
  let polled_at := with_consumer
                     (polled (called (Poll (effective_timeout timeout s)) (_consumer s))) s in
  Consumer_consume handler timeout s
  = match next_poll (_consumer s) with
    | Nothing => (Raised NoMessageError, polled_at)
    | Failure text => (Raised (ExternalError text), polled_at)
    | Delivered m => (handler ;; gets message) (with_message (Some m) polled_at)
    end.
Proof.
  unfold Consumer_consume, Consumer__poll_for_message, client_poll, effective_timeout.
  run. unfold next_poll at 1. simpl. fold (next_poll (_consumer s)).
  destruct timeout as [t|]; destruct (next_poll (_consumer s)); reflexivity.
Qed.

(** The handling of a message writes the offsets, the count and the kept
    messages, reads the clock and calls the metrics manager; the client,
    the held message, the start of the window and the bounds stay. *)
Lemma handle_frame s r s' :
  TransactionalConsumer__handle_consumed_message s = (r, s') ->
  _consumer s' = _consumer s /\
  message s' = message s /\
  _batch_time_elapse_start s' = _batch_time_elapse_start s /\
  _poll_timeout s' = _poll_timeout s /\
  _consume_max_count s' = _consume_max_count s /\
  _consume_max_time_secs s' = _consume_max_time_secs s /\
  _store_batch_messages s' = _store_batch_messages s.
Proof.
  unfold TransactionalConsumer__handle_consumed_message, Consumer__handle_consumed_message,
    _mark_offset_start, _mark_offset_end, held_message, call_helper, metrics_note, now.
  run. intros H. cases; repeat split; congruence.
Qed.

(** the base class's handling only reads the clock and calls the metrics
    manager *)
Lemma Consumer_handle_frame s r s' :
  Consumer__handle_consumed_message s = (r, s') -> metrics_only s s'.
Proof.
  unfold Consumer__handle_consumed_message, held_message, call_helper, metrics_note, now,
    metrics_only.
  run. intros H. cases;
    match goal with |- context [with_clock_reads _ ?x] => destruct x end; reflexivity.
Qed.

(** A consume call of the transactional consumer, split at its two tests. *)
Lemma consume_shape timeout consume_multiplier s :
  exists k s1,
    _keep_consuming consume_multiplier s = (k, s1) /\
    window_only s s1 /\
    TransactionalConsumer_consume timeout consume_multiplier s
    = match k with
      | Returned true =>
          match Consumer_consume TransactionalConsumer__handle_consumed_message timeout s1 with
          | (Raised NoMessageError, s2) =>
              (if bool_decide (_batch_offset_ends s2 <> ∅)
               then Raised FinishedTransactionBatch else Raised NoMessageError, s2)
          | other => other
          end
      | Returned false => (Raised FinishedTransactionBatch, s1)
      | Raised e => (Raised e, s1)
      end.
Proof.
  destruct (_keep_consuming consume_multiplier s) as [k s1] eqn:Hk.
  exists k, s1. split; [reflexivity|]. split; [eapply keep_consuming_window; eauto|].
  unfold TransactionalConsumer_consume, try_except.
  destruct k as [[|]|e0].
  - rewrite (bind_returned _ _ _ _ _ Hk).
    destruct (Consumer_consume _ timeout s1) as [[m|e2] s2]; [reflexivity|].
    destruct e2; try reflexivity. run. now destruct (bool_decide _).
  - rewrite (bind_returned _ _ _ _ _ Hk). reflexivity.
  - rewrite (bind_raised _ _ _ _ _ Hk).
    destruct (keep_consuming_raises _ _ _ _ Hk) as [why ->]. reflexivity.
Qed.


(** What [Consumer.consume] leaves of a transactional consumer, by what
    the poll answered. *)
Lemma Consumer_consume_frame timeout s r s' :
  Consumer_consume TransactionalConsumer__handle_consumed_message timeout s = (r, s') ->
  _consumer s' = polled (called (Poll (effective_timeout timeout s)) (_consumer s)) /\
  _batch_time_elapse_start s' = _batch_time_elapse_start s /\
  match next_poll (_consumer s) with
  | Nothing => r = Raised NoMessageError /\ _batch_offset_ends s' = _batch_offset_ends s
  | Failure text => r = Raised (ExternalError text)
  | Delivered m => (forall e, r = Raised e -> ~ control_signal e) /\ message s' = Some m
  end.
Proof.
  rewrite Consumer_consume_shape.
  destruct (next_poll (_consumer s)) as [m| |text]; simpl.
  - unfold bind at 1.
    destruct (TransactionalConsumer__handle_consumed_message _) as [[[]|e] s2] eqn:Hh;
      intros H; inversion H; subst; clear H;
      pose proof (handle_frame _ _ _ Hh) as (Hcl & Hm & Hst & _); simpl in *.
    + repeat split; auto. discriminate.
    + repeat split; auto. intros e' He'. inversion He'; subst.
      eapply handle_no_signal; eauto.
  - intros H; inversion H; subst. repeat split.
  - intros H; inversion H; subst. repeat split.
Qed.

(** *** What a consume call asks of the client *)

(** X1. A consume call of the transactional consumer makes no call to the
    client but one poll, and that only when the count test and the time
    test both pass.  The poll is given the caller's timeout when there is
    one and it is not 0, and the configured poll timeout otherwise. *)
Theorem consume_client_calls timeout consume_multiplier s :
  let s' := snd (TransactionalConsumer_consume timeout consume_multiplier s) in
  calls (_consumer s')
  = (calls (_consumer s)
       ++ match fst (_keep_consuming consume_multiplier s) with
          | Returned true => [Poll (effective_timeout timeout s)]
          | _ => []
          end)%list /\
  assigned (_consumer s') = assigned (_consumer s) /\
  group_metadata (_consumer s') = group_metadata (_consumer s).
Proof.
  destruct (consume_shape timeout consume_multiplier s) as (k & s1 & Hk & Hw & Hrun).
  simpl. rewrite Hrun, Hk. simpl.
  assert (Hto : effective_timeout timeout s1 = effective_timeout timeout s).
  { rewrite Hw. now destruct timeout. }
  assert (Hc : _consumer s1 = _consumer s) by (rewrite Hw; reflexivity).
  destruct k as [[|]|e0]; simpl.
  2,3: rewrite Hc, app_nil_r; auto.
  destruct (Consumer_consume _ timeout s1) as [r2 s2] eqn:E.
  apply Consumer_consume_frame in E as (Hcl & _). rewrite Hto, Hc in Hcl.
  assert (Hsame : forall x : outcome (option Message) * TransactionalConsumer,
             snd x = s2 -> calls (_consumer (snd x))
                           = (calls (_consumer s) ++ [Poll (effective_timeout timeout s)])%list /\
                           assigned (_consumer (snd x)) = assigned (_consumer s) /\
                           group_metadata (_consumer (snd x)) = group_metadata (_consumer s)).
  { intros x ->. rewrite Hcl. simpl. auto. }
  apply Hsame. destruct r2 as [a|e]; [reflexivity|]. destruct e; reflexivity.
Qed.

(** *** The start of the time window *)

Lemma time_test_start s t0 k s1 :
  _batch_time_elapse_start s = Some t0 ->
  ~ (t0 == 0)%Q ->
  _max_consume_time_continue s = (k, s1) ->
  _batch_time_elapse_start s1 = Some t0 \/
  (_batch_time_elapse_start s1 = None /\ k = Returned false).
Proof.
  intros Hstart Ht0. unfold _max_consume_time_continue, now. run.
  destruct (_consume_max_time_secs s) as [mx|]; simpl.
  2:{ intros H; inversion H; subst. auto. }
  destruct (negb (Qeq_bool mx 0)); simpl.
  2:{ intros H; inversion H; subst. auto. }
  rewrite Hstart. simpl. fold (Py.truthy_Q (Some t0)).
  rewrite (truthy_Q_nonzero _ Ht0). simpl. rewrite Hstart.
  destruct (Py.ltb _ mx); simpl; intros H; inversion H; subst; simpl; auto.
Qed.

(** X2. A start of the time window that is stamped (and is not 0) is
    never moved by a consume call: after the call it is the same stamp,
    or it is unset and the call raised FinishedTransactionBatch. *)
Theorem consume_keeps_stamped_start timeout consume_multiplier s t0 :
  _batch_time_elapse_start s = Some t0 ->
  ~ (t0 == 0)%Q ->
  let after := TransactionalConsumer_consume timeout consume_multiplier s in
  _batch_time_elapse_start (snd after) = Some t0 \/
  (_batch_time_elapse_start (snd after) = None /\ fst after = Raised FinishedTransactionBatch).
Proof.
  intros Hstart Ht0.
  destruct (consume_shape timeout consume_multiplier s) as (k & s1 & Hk & _ & Hrun).
  simpl. rewrite Hrun. clear Hrun.
  assert (Hk1 : _batch_time_elapse_start s1 = Some t0 \/
                (_batch_time_elapse_start s1 = None /\ k = Returned false)).
  { unfold _keep_consuming in Hk.
    destruct (max_consume_count_continue_pure consume_multiplier s) as [Hs [b Hb]].
    destruct (_max_consume_count_continue consume_multiplier s) as [r0 s0] eqn:E.
    simpl in Hs, Hb. subst r0 s0.
    rewrite (bind_returned _ _ _ _ _ E) in Hk. destruct b.
    - eapply time_test_start; eauto.
    - inversion Hk; subst. auto. }
  destruct Hk1 as [Hk1|[Hk1 ->]]; [|right; auto].
  left. destruct k as [[|]|e0]; simpl; try assumption.
  destruct (Consumer_consume _ timeout s1) as [r2 s2] eqn:E.
  apply Consumer_consume_frame in E as (_ & Hst & _). rewrite Hk1 in Hst.
  destruct r2 as [a|e]; [assumption|]. destruct e; exact Hst.
Qed.

(** *** A batch without bounds *)

Lemma keep_consuming_unbounded consume_multiplier s :
  Py.truthy_Z (_consume_max_count s) = false ->
  Py.truthy_Q (_consume_max_time_secs s) = false ->
  _keep_consuming consume_multiplier s = (Returned true, s).
Proof.
  intros Hc Ht.
  unfold _keep_consuming, _max_consume_count_continue, _max_consume_time_continue. run.
  destruct (_consume_max_count s) as [n|]; simpl in *.
  - rewrite Hc. simpl. destruct (_consume_max_time_secs s) as [mx|]; simpl in *;
      [now rewrite Ht|reflexivity].
  - destruct (_consume_max_time_secs s) as [mx|]; simpl in *;
      [now rewrite Ht|reflexivity].
Qed.

(** X3. With neither bound in force (each is None or 0), a consume call
    raises FinishedTransactionBatch exactly when its poll answers nothing
    and an end offset is tracked; it reads no clock for the window and
    leaves the start of the window alone. *)
Theorem unbounded_batch_finishes_on_empty_poll timeout consume_multiplier s :
  Py.truthy_Z (_consume_max_count s) = false ->
  Py.truthy_Q (_consume_max_time_secs s) = false ->
  let after := TransactionalConsumer_consume timeout consume_multiplier s in
  (fst after = Raised FinishedTransactionBatch <->
   next_poll (_consumer s) = Nothing /\ _batch_offset_ends s <> ∅) /\
  _batch_time_elapse_start (snd after) = _batch_time_elapse_start s.
Proof.
  intros Hc Ht.
  destruct (consume_shape timeout consume_multiplier s) as (k & s1 & Hk & _ & Hrun).
  rewrite (keep_consuming_unbounded _ _ Hc Ht) in Hk. inversion Hk; subst k s1.
  simpl. rewrite Hrun. clear Hrun Hk.
  destruct (Consumer_consume _ timeout s) as [r2 s2] eqn:E.
  apply Consumer_consume_frame in E as (_ & Hst & Hpoll).
  destruct (next_poll (_consumer s)) as [m| |text].
  - destruct Hpoll as [Hno _].
    destruct r2 as [a|e]; simpl.
    + split; [|exact Hst]. split; [discriminate|intros [? _]; discriminate].
    + specialize (Hno e eq_refl).
      destruct e; simpl; (split; [|exact Hst]);
        (split; [try discriminate|intros [? _]; discriminate]);
        exfalso; apply Hno; unfold control_signal; auto.
  - destruct Hpoll as [-> He]. rewrite He.
    case_bool_decide as Hd; simpl; (split; [|exact Hst]).
    + split; auto.
    + split; [discriminate|]. intros [_ Hne]. contradiction.
  - subst r2. simpl. split; [|exact Hst].
    split; [discriminate|intros [? _]; discriminate].
Qed.


(** *** More on commit *)

(** X4. A commit that raises, because the producer refused one of its
    calls, has not reset the batch: the start and end offsets, the count,
    the kept messages, the held message and the start of the time window
    are as before the call, so the caller can commit again or roll back. *)
Theorem commit_raised_keeps_batch p s e p' s' :
  TransactionalConsumer_commit (p, s) = (Raised e, (p', s')) ->
  _batch_offset_starts s' = _batch_offset_starts s /\
  _batch_offset_ends s' = _batch_offset_ends s /\
  _consume_message_count s' = _consume_message_count s /\
  _messages s' = _messages s /\
  message s' = message s /\
  _batch_time_elapse_start s' = _batch_time_elapse_start s.
Proof.
  unfold TransactionalConsumer_commit, _commit, _init_attrs, on_fst, on_snd,
    begin_transaction, send_offsets_to_transaction, commit_transaction, producer_do,
    client_consumer_group_metadata, client_note.
  run. intros H. cases; repeat split.
Qed.

(** X5. With no end offset tracked and a transaction open on the
    producer, a commit that returned has made one call to the producer,
    the commit of the transaction with a timeout of 30, and no call to the
    client: what the caller produced is committed although nothing was
    consumed. *)
Theorem commit_open_transaction p s p' s' :
  _batch_offset_ends s = ∅ ->
  active_transaction p = true ->
  TransactionalConsumer_commit (p, s) = (Returned tt, (p', s')) ->
  transaction_calls p' = (transaction_calls p ++ [CommitTransaction 30])%list /\
  _consumer s' = _consumer s /\
  message s' = None /\
  pending_commits s' = false.
Proof.
  intros Hends Hact Hrun.
  apply commit_returned in Hrun as [Hcalls ->].
  rewrite Hends, offsets_to_commit_empty in *.
  rewrite bool_decide_eq_true_2 in * by reflexivity.
  rewrite Hact in Hcalls. simpl in Hcalls. now repeat split.
Qed.

(** X6. After a commit that returned no message is held: [key()],
    [value()] and [headers()] raise the AttributeError of an attribute
    looked up on None. *)
Theorem accessors_after_commit p s p' s' :
  TransactionalConsumer_commit (p, s) = (Returned tt, (p', s')) ->
  Consumer_key s' = (Raised (AttributeError "'NoneType' object has no attribute 'key'"), s') /\
  Consumer_value s'
  = (Raised (AttributeError "'NoneType' object has no attribute 'value'"), s') /\
  Consumer_headers s'
  = (Raised (AttributeError "'NoneType' object has no attribute 'headers'"), s').
Proof.
  intros Hrun. apply commit_returned in Hrun as [_ ->].
  unfold Consumer_key, Consumer_value, Consumer_headers, held_message, finalized.
  now destruct (bool_decide _).
Qed.


(** *** What a batch keeps *)

Lemma handle_raised_counts s e s' :
  TransactionalConsumer__handle_consumed_message s = (Raised e, s') ->
  _consume_message_count s' = _consume_message_count s /\
  _messages s' = _messages s.
Proof.
  unfold TransactionalConsumer__handle_consumed_message, Consumer__handle_consumed_message,
    _mark_offset_start, _mark_offset_end, held_message, call_helper, metrics_note, now.
  run. intros H. cases; auto.
Qed.

(** A consume call either returns a message and has noted it, or raises
    and has noted nothing. *)
Lemma consume_outcome timeout consume_multiplier s r s' :
  TransactionalConsumer_consume timeout consume_multiplier s = (r, s') ->
  (exists m, r = Returned (Some m) /\ noted m s s') \/
  (exists e, r = Raised e /\
             _batch_offset_starts s' = _batch_offset_starts s /\
             _batch_offset_ends s' = _batch_offset_ends s /\
             _consume_message_count s' = _consume_message_count s /\
             _messages s' = _messages s /\
             _store_batch_messages s' = _store_batch_messages s /\
             _consume_max_count s' = _consume_max_count s).
Proof.
  intros H. destruct r as [r|e].
  { left. apply consume_returned in H as (m & _ & -> & Hn). eauto. }
  right. exists e. split; [reflexivity|].
  destruct (consume_raised_keeps _ _ _ _ _ H) as [Hst He].
  split; [assumption|]. split; [assumption|].
  destruct (consume_shape timeout consume_multiplier s) as (k & s1 & Hk & Hw & Hrun).
  rewrite Hrun in H. clear Hrun.
  assert (Hf : _consume_message_count s1 = _consume_message_count s /\
               _messages s1 = _messages s /\
               _store_batch_messages s1 = _store_batch_messages s /\
               _consume_max_count s1 = _consume_max_count s).
  { rewrite Hw. repeat split. }
  destruct Hf as (Hf1 & Hf2 & Hf3 & Hf4).
  destruct k as [[|]|e0].
  2,3: inversion H; subst; auto.
  rewrite Consumer_consume_shape in H.
  destruct (next_poll (_consumer s1)) as [m| |text]; simpl in H.
  2:{ destruct (bool_decide _); inversion H; subst; simpl; auto. }
  2:{ inversion H; subst; simpl; auto. }
  unfold bind at 1 in H.
  destruct (TransactionalConsumer__handle_consumed_message _) as [[[]|e2] s2] eqn:Hh.
  { unfold gets in H. discriminate. }
  pose proof (handle_raised_counts _ _ _ Hh) as [Hc Hm].
  pose proof (handle_frame _ _ _ Hh) as (_ & _ & _ & _ & Hmax & _ & Hstore).
  simpl in *.
  assert (s' = s2) as ->.
  { destruct e2; try destruct (bool_decide _); now inversion H. }
  repeat split; congruence.
Qed.

Lemma batch_calls_counts s l s' :
  batch_calls s l s' ->
  _consume_message_count s' = _consume_message_count s + Z.of_nat (length l) /\
  _store_batch_messages s' = _store_batch_messages s /\
  _messages s' = (if _store_batch_messages s then _messages s ++ l else _messages s)%list.
Proof.
  induction 1 as [s|s l s1 timeout mult m s2 _ (IHc & IHs & IHm) Hc
                 |s l s1 timeout mult e s2 _ (IHc & IHs & IHm) Hc].
  - repeat split; [simpl; lia|]. destruct (_store_batch_messages s); [|reflexivity].
    now rewrite app_nil_r.
  - apply consume_outcome in Hc as [(m' & Hm' & Hn)|(e & He & _)]; [|discriminate].
    inversion Hm'; subst m'. destruct Hn as (_ & _ & _ & Hcount & Hmsgs & _ & _ & Hstore).
    rewrite Hcount, Hstore, Hmsgs, IHc, IHs, IHm, length_app. simpl.
    repeat split; [lia|]. destruct (_store_batch_messages s); [|reflexivity].
    now rewrite app_assoc.
  - apply consume_outcome in Hc as [(m' & Hm' & _)|(e' & _ & _ & _ & Hcount & Hmsgs & Hstore & _)];
      [discriminate|].
    now rewrite Hcount, Hstore, Hmsgs.
Qed.

Lemma mark_end_no_empty_topic topic partition offset d :
  no_empty_topic d -> no_empty_topic (mark_end topic partition offset d).
Proof.
  intros Hd t ps. unfold mark_end.
  destruct (decide (topic = t)) as [<-|Hne].
  - rewrite lookup_insert_eq. intros H; inversion H; subst. apply insert_non_empty.
  - rewrite lookup_insert_ne by assumption.
    destruct (d !! topic); [apply Hd|].
    rewrite lookup_insert_ne by assumption. apply Hd.
Qed.

Lemma batch_calls_no_empty_topic s l s' :
  batch_calls s l s' ->
  no_empty_topic (_batch_offset_ends s) -> no_empty_topic (_batch_offset_ends s').
Proof.
  induction 1 as [s|s l s1 timeout mult m s2 _ IH Hc|s l s1 timeout mult e s2 _ IH Hc];
    intros H0; [assumption| |].
  - apply consume_outcome in Hc as [(m' & _ & Hn)|(e & He & _)]; [|discriminate].
    destruct Hn as (_ & _ & He & _). rewrite He. apply mark_end_no_empty_topic. auto.
  - apply consume_raised_keeps in Hc as [_ He]. rewrite He. auto.
Qed.

Lemma no_empty_topic_empty_iff (d : gmap string (gmap Z Z)) :
  no_empty_topic d ->
  (d = ∅ <-> forall topic partition, tracked d topic partition = None).
Proof.
  intros Hd. split.
  - intros -> topic partition. unfold tracked. now rewrite lookup_empty.
  - intros Hnone. apply map_eq. intros topic. rewrite lookup_empty.
    destruct (d !! topic) as [ps|] eqn:Ht; [|reflexivity].
    exfalso. apply (Hd _ _ Ht). apply map_eq. intros partition. rewrite lookup_empty.
    specialize (Hnone topic partition). unfold tracked in Hnone. now rewrite Ht in Hnone.
Qed.

Lemma offsets_seen_nonempty topic partition l :
  offsets_seen topic partition l <> [] <->
  exists m, m ∈ l /\ msg_topic m = topic /\ msg_partition m = partition.
Proof.
  unfold offsets_seen. split.
  - intros H.
    destruct (filter _ l) as [|m f] eqn:Hf; [contradiction|].
    assert (Hin : m ∈ filter (fun m => msg_topic m = topic /\ msg_partition m = partition) l).
    { rewrite Hf. left. }
    apply list_elem_of_filter in Hin as [[? ?] ?]. eauto.
  - intros (m & Hin & Ht & Hp) H. apply fmap_nil_inv in H.
    assert (Hin' : m ∈ filter (fun m => msg_topic m = topic /\ msg_partition m = partition) l).
    { apply list_elem_of_filter. auto. }
    rewrite H in Hin'. now apply elem_of_nil in Hin'.
Qed.

(** X7. In a batch that starts with nothing tracked, the start offsets and
    the end offsets are tracked for the same partitions: those of the
    messages the consume calls returned.  So a commit and a rollback of
    the batch range over the same partitions. *)
Theorem batch_tracks_same_partitions s l s' topic partition :
  _batch_offset_starts s = ∅ ->
  _batch_offset_ends s = ∅ ->
  batch_calls s l s' ->
  (is_Some (tracked (_batch_offset_starts s') topic partition) <->
   is_Some (tracked (_batch_offset_ends s') topic partition)) /\
  (is_Some (tracked (_batch_offset_ends s') topic partition) <->
   exists m, m ∈ l /\ msg_topic m = topic /\ msg_partition m = partition).
Proof.
  intros Hs0 He0 Hrun.
  destruct (batch_calls_tracking _ _ _ Hrun topic partition) as [Hs He].
  assert (Hnone : forall d : gmap string (gmap Z Z), d = ∅ -> tracked d topic partition = None).
  { intros d ->. unfold tracked. now rewrite lookup_empty. }
  rewrite (Hnone _ Hs0) in Hs. rewrite (Hnone _ He0) in He.
  assert (He' : tracked (_batch_offset_ends s') topic partition
                = last (offsets_seen topic partition l)) by (rewrite He; now destruct (last _)).
  rewrite Hs, He', <- offsets_seen_nonempty, last_is_Some.
  split; [|reflexivity].
  destruct (offsets_seen topic partition l); simpl; split; intros H;
    try (now destruct H); try congruence; eauto.
Qed.

(** X8. In a batch that starts with nothing tracked and a count of 0, the
    count is the number of messages the consume calls returned, and
    [pending_commits], a non-empty dict of end offsets (what [consume]
    tests on an empty poll) and a non-empty list of offsets to commit
    (what [_commit] tests) all hold exactly when at least one message was
    returned. *)
Theorem pending_commits_iff_consumed s l s' :
  _batch_offset_starts s = ∅ ->
  _batch_offset_ends s = ∅ ->
  _consume_message_count s = 0 ->
  batch_calls s l s' ->
  _consume_message_count s' = Z.of_nat (length l) /\
  (pending_commits s' = true <-> l <> []) /\
  (_batch_offset_ends s' <> ∅ <-> l <> []) /\
  (offsets_to_commit (_batch_offset_ends s') <> [] <-> l <> []).
Proof.
  intros Hs0 He0 Hc0 Hrun.
  destruct (batch_calls_counts _ _ _ Hrun) as (Hcount & _).
  rewrite Hc0 in Hcount. simpl in Hcount.
  assert (Hwf : no_empty_topic (_batch_offset_ends s')).
  { eapply batch_calls_no_empty_topic; eauto. rewrite He0. intros t ps H.
    rewrite lookup_empty in H. discriminate. }
  assert (Htracked : forall topic partition,
             tracked (_batch_offset_ends s') topic partition
             = last (offsets_seen topic partition l)).
  { intros topic partition.
    destruct (batch_calls_tracking _ _ _ Hrun topic partition) as [_ He].
    rewrite He, He0. unfold tracked at 1. rewrite lookup_empty. simpl. now destruct (last _). }
  assert (Hends : _batch_offset_ends s' <> ∅ <-> l <> []).
  { rewrite (no_empty_topic_empty_iff _ Hwf). split.
    - intros Hne ->. apply Hne. intros topic partition. now rewrite Htracked.
    - intros Hl Hnone. destruct l as [|m l]; [contradiction|].
      specialize (Hnone (msg_topic m) (msg_partition m)).
      rewrite Htracked in Hnone. apply last_None in Hnone.
      revert Hnone. apply offsets_seen_nonempty. exists m. split; [left|auto]. }
  split; [assumption|]. split; [|split; [assumption|]].
  - unfold pending_commits. rewrite Hcount.
    destruct l; simpl; split; try congruence; try discriminate.
  - rewrite <- Hends. split.
    + intros Hne Hempty. rewrite Hempty, offsets_to_commit_empty in Hne. contradiction.
    + intros Hne Hnil. apply Hne. apply (no_empty_topic_empty_iff _ Hwf).
      intros topic partition.
      destruct (tracked (_batch_offset_ends s') topic partition) as [o|] eqn:Ht;
        [|reflexivity].
      exfalso.
      assert (Hin : (topic, partition, o + 1) ∈ offsets_to_commit (_batch_offset_ends s')).
      { apply offsets_to_commit_spec. rewrite Ht. f_equal. lia. }
      rewrite Hnil in Hin. now apply elem_of_nil in Hin.
Qed.

(** X9. When messages are kept ([_store_batch_messages] is true) and the
    list starts empty, [messages()] returns the messages the consume calls
    of the batch returned, in that order; when they are not kept the list
    is never written and [messages()] returns the held message alone. *)
Theorem batch_keeps_messages s l s' :
  _messages s = [] ->
  batch_calls s l s' ->
  (_store_batch_messages s = true ->
   TransactionalConsumer_messages s' = (Returned (Some <$> l), s')) /\
  (_store_batch_messages s = false ->
   _messages s' = [] /\
   TransactionalConsumer_messages s' = (Returned [message s'], s')).
Proof.
  intros Hm0 Hrun.
  destruct (batch_calls_counts _ _ _ Hrun) as (_ & Hstore & Hmsgs).
  unfold TransactionalConsumer_messages, Consumer_messages. run.
  rewrite Hstore. split; intros Hs; rewrite Hs in *; simpl.
  - now rewrite Hmsgs, Hm0.
  - now rewrite Hmsgs, Hm0.
Qed.


(** X10. Under a count bound [n] other than 0, the consume calls of a
    batch that starts at a count of 0, all made with one multiplier,
    return at most [n] times the multiplier messages (none when that
    product is negative). *)
Theorem batch_count_bounded consume_multiplier s l s' n :
  _consume_max_count s = Some n ->
  n <> 0 ->
  _consume_message_count s = 0 ->
  batch_calls_at consume_multiplier s l s' ->
  Z.of_nat (length l) <= Z.max 0 (n * consume_multiplier).
Proof.
  intros Hmax Hn H0 Hrun.
  assert (Hinv : _consume_message_count s' = Z.of_nat (length l) /\
                 _consume_max_count s' = Some n /\
                 Z.of_nat (length l) <= Z.max 0 (n * consume_multiplier)).
  { induction Hrun as [s|s l s1 timeout r s2 _ IH Hc].
    - simpl. repeat split; [assumption|assumption|lia].
    - destruct (IH Hmax H0) as (IHc & IHm & IHb).
      pose proof Hc as Hc'.
      apply consume_outcome in Hc as [(m & -> & Hnoted)|(e & -> & _ & _ & Hcount & _ & _ & Hmx)].
      + destruct Hnoted as (_ & _ & _ & Hcount & _ & Hmx & _).
        rewrite length_app. simpl.
        assert (Hlt : _consume_message_count s1 < n * consume_multiplier).
        { destruct (Z.lt_ge_cases (_consume_message_count s1) (n * consume_multiplier))
            as [Hlt|Hge]; [assumption|].
          rewrite (count_exhausted timeout consume_multiplier s1 n IHm Hn Hge) in Hc'.
          discriminate. }
        repeat split; [lia|congruence|lia].
      + rewrite app_nil_r. repeat split; [congruence|congruence|assumption]. }
  apply Hinv.
Qed.


(** *** The assignment, regrouped *)

(** X11. [_get_consumer_partition_assignment] asks the client for its
    assignment, once, and returns a dict that lists a partition under a
    topic exactly when the client listed that TopicPartition; a topic the
    client did not list has no entry, and no entry is an empty list. *)
Theorem partition_assignment_regroups s :
  exists d,
    _get_consumer_partition_assignment s
    = (Returned d, with_consumer (called Assignment (_consumer s)) s) /\
    (forall topic partition,
        partition ∈ default [] (d !! topic) <-> (topic, partition) ∈ assigned (_consumer s)) /\
    (forall topic,
        is_Some (d !! topic) <-> exists partition, (topic, partition) ∈ assigned (_consumer s)) /\
    (forall topic, d !! topic <> Some []).
Proof.
  exists (partition_assignment (assigned (_consumer s))).
  split; [reflexivity|]. split; [intros; apply in_partition_assignment|].
  assert (Hsome : forall topic ps,
             partition_assignment (assigned (_consumer s)) !! topic = Some ps ->
             exists partition, (topic, partition) ∈ assigned (_consumer s)).
  { intros topic ps Hl. unfold partition_assignment in Hl.
    apply elem_of_list_to_map_2 in Hl.
    apply list_elem_of_fmap in Hl as (t & Heq & Hin). inversion Heq; subst t ps.
    apply elem_of_elements, elem_of_list_to_set, list_elem_of_fmap in Hin
      as ([t p] & -> & Hin).
    eauto. }
  split.
  - intros topic. split.
    + intros [ps Hl]. eauto.
    + intros [partition Hin]. apply in_partition_assignment in Hin.
      destruct (partition_assignment _ !! topic); [eauto|].
      now apply elem_of_nil in Hin.
  - intros topic Hl. destruct (Hsome _ _ Hl) as [partition Hin].
    apply in_partition_assignment in Hin. rewrite Hl in Hin. now apply elem_of_nil in Hin.
Qed.

(** *** More on rollback *)

Lemma start_assigned_decidable s : start_assigned s \/ ~ start_assigned s.
Proof.
  set (entries := offsets_to_commit (_batch_offset_starts s)).
  destruct (decide (Exists (fun entry : string * Z * Z =>
                               offset_key entry ∈ assigned (_consumer s)) entries))
    as [Hyes|Hno].
  - left. apply Exists_exists in Hyes as ([[t p] o] & Hin & Hasg).
    apply offsets_to_commit_spec in Hin. exists t, p, (o - 1). auto.
  - right. intros (t & p & o & Ht & Hasg). apply Hno.
    apply Exists_exists. exists (t, p, o + 1). split; [|exact Hasg].
    apply offsets_to_commit_spec. rewrite Ht. f_equal. lia.
Qed.

(** X12. [rollback_consumption] makes one call to the client, for its
    assignment, and never a seek; it leaves the held message and the start
    of the time window alone.  It returns exactly when no tracked start
    offset is for a partition the client still lists, and then the
    offsets, the count and the kept messages are cleared; when it raises
    they are all as before the call. *)
Theorem rollback_consumption_calls s :
  let rolled := rollback_consumption s in
  calls (_consumer (snd rolled)) = (calls (_consumer s) ++ [Assignment])%list /\
  message (snd rolled) = message s /\
  _batch_time_elapse_start (snd rolled) = _batch_time_elapse_start s /\
  (fst rolled = Returned tt <-> ~ start_assigned s) /\
  (fst rolled = Returned tt ->
   _batch_offset_starts (snd rolled) = ∅ /\ _batch_offset_ends (snd rolled) = ∅ /\
   _consume_message_count (snd rolled) = 0 /\ _messages (snd rolled) = []) /\
  (fst rolled <> Returned tt ->
   _batch_offset_starts (snd rolled) = _batch_offset_starts s /\
   _batch_offset_ends (snd rolled) = _batch_offset_ends s /\
   _consume_message_count (snd rolled) = _consume_message_count s /\
   _messages (snd rolled) = _messages s).
Proof.
  destruct (rollback_consumption_outcome s) as [Hyes Hno]. simpl in Hyes, Hno.
  destruct (start_assigned_decidable s) as [Ha|Hna]; simpl.
  - rewrite (Hyes Ha). simpl. repeat split; try discriminate; try contradiction.
  - rewrite (Hno Hna). simpl. repeat split; auto; congruence.
Qed.


(** *** Construction *)

(** X13. [TransactionalConsumer.__init__] raises (the AttributeError of an
    attribute looked up on None) exactly when no settings are given and
    one of the three batch arguments is missing or false: in particular
    [batch_consume_store_messages=False] needs settings.  When it returns,
    each batch argument that is true is taken and each other one is read
    from the settings, the poll timeout is that of the settings or 5, the
    client has been subscribed if asked to, and the batch is empty with
    nothing pending. *)
Theorem init_outcome client clock topics auto_subscribe settings metrics
    max_time max_count store :
  let made := TransactionalConsumer___init__ client clock topics auto_subscribe settings
                metrics max_time max_count store in
  ((exists e, made = Raised e) <->
   settings = None /\
   (Py.truthy_Q max_time = false \/ Py.truthy_Z max_count = false \/
    default false store = false)) /\
  (forall s, made = Returned s ->
     _consume_max_time_secs s
     = (if Py.truthy_Q max_time then max_time
        else settings ≫= Settings.batch_consume_max_time_secs) /\
     _consume_max_count s
     = (if Py.truthy_Z max_count then max_count
        else settings ≫= Settings.batch_consume_max_count) /\
     _store_batch_messages s
     = (if default false store then true
        else default false (settings ≫= Settings.batch_consume_store_messages)) /\
     _poll_timeout s = from_option Settings.poll_timeout_secs (inject_Z 5) settings /\
     calls (_consumer s)
     = (calls client ++ if auto_subscribe then [Subscribe topics] else [])%list /\
     _batch_offset_starts s = ∅ /\ _batch_offset_ends s = ∅ /\
     _consume_message_count s = 0 /\ _messages s = [] /\
     message s = None /\ _batch_time_elapse_start s = None /\
     pending_commits s = false).
Proof.
  unfold TransactionalConsumer___init__, or_else, setting.
  destruct (Py.truthy_Q max_time) eqn:E1; destruct (Py.truthy_Z max_count) eqn:E2;
    destruct (default false store) eqn:E3; destruct settings as [c|]; simpl;
    (split; [split; [intros [e He]; try discriminate; auto
                    |intros [Hs Hor]; try discriminate;
                     try (destruct Hor as [?|[?|?]]; discriminate); eauto]
            |intros s Hs; try discriminate; inversion Hs; subst; simpl;
             destruct auto_subscribe; simpl; rewrite ?app_nil_r; repeat split;
             auto]).
Qed.

(** *** The base class *)

(** X14. A [consume] of the base class that returns has polled once and
    returns the polled message; the [commit] after it hands that message
    to the client's [store_offsets] and holds no message any more.  The
    pair has made these two calls to the client and has written none of
    the batch attributes. *)
Theorem Consumer_consume_then_commit timeout s r s1 :
  Consumer_consume Consumer__handle_consumed_message timeout s = (Returned r, s1) ->
  exists m,
    next_poll (_consumer s) = Delivered m /\
    r = Some m /\
    fst (Consumer_commit s1) = Returned tt /\
    calls (_consumer (snd (Consumer_commit s1)))
    = (calls (_consumer s) ++ [Poll (effective_timeout timeout s); StoreOffsets m])%list /\
    message (snd (Consumer_commit s1)) = None /\
    _batch_offset_starts (snd (Consumer_commit s1)) = _batch_offset_starts s /\
    _batch_offset_ends (snd (Consumer_commit s1)) = _batch_offset_ends s /\
    _consume_message_count (snd (Consumer_commit s1)) = _consume_message_count s /\
    _messages (snd (Consumer_commit s1)) = _messages s.
Proof.
  rewrite Consumer_consume_shape.
  destruct (next_poll (_consumer s)) as [m| |text]; simpl; try discriminate.
  unfold bind at 1.
  destruct (Consumer__handle_consumed_message _) as [[[]|e] s2] eqn:Hh; [|discriminate].
  apply Consumer_handle_frame in Hh. unfold gets. intros H. inversion H; subst r s1. clear H.
  exists m. rewrite Hh. simpl. split; [reflexivity|]. split; [reflexivity|].
  unfold Consumer_commit, client_note. run.
  rewrite <- app_assoc. repeat split.
Qed.


(** *** Metrics *)

(** X15. With a metrics manager, handling a held message whose guid can
    be read makes two calls to it, in this order: the seconds behind (the
    clock, rounded, minus the seconds of the message's timestamp) and one
    consumed message for the message's topic.  When reading the guid
    fails on an attribute and the error has no signature, only the second
    call is made; when the handling raises, none is. *)
Theorem handle_consumed_message_metrics s m log :
  message s = Some m ->
  metrics_manager s = Some log ->
  let after := Consumer__handle_consumed_message s in
  (forall guid, get_guid_from_message m = Gives guid ->
     metrics_manager (snd after)
     = Some (log ++ [SetSecondsBehind
                       (Py.round (wall_clock s (clock_reads s)) - msg_timestamp m / 1000);
                     IncMessagesConsumed 1 (msg_topic m)])%list) /\
  (forall why, get_guid_from_message m = AttributeFault why ->
     Py.contains headers_signature (str_error m) = false ->
     metrics_manager (snd after) = Some (log ++ [IncMessagesConsumed 1 (msg_topic m)])%list) /\
  (forall e, fst after = Raised e -> metrics_manager (snd after) = Some log).
Proof.
  intros Hm Hlog. destruct s. simpl in Hm, Hlog. subst. unfold headers_signature.
  unfold Consumer__handle_consumed_message, held_message, call_helper, metrics_note, now,
    has_metrics.
  run.
  destruct (get_guid_from_message m) as [guid|why|why]; simpl.
  - repeat split; try discriminate. now rewrite <- app_assoc.
  - destruct (Py.contains _ (str_error m)); simpl; repeat split; discriminate.
  - repeat split; discriminate.
Qed.

(** *** The two marks *)

(** X16. For a held message, [_mark_offset_end] makes its offset the end
    offset of its (topic, partition), whatever was there; and
    [_mark_offset_start] makes it the start offset only if none was
    tracked, so a second mark changes nothing.  Neither touches the offset
    of another (topic, partition). *)
Theorem marks_track_the_held_message s m :
  message s = Some m ->
  let key := (msg_topic m, msg_partition m) in
  let started := snd (_mark_offset_start s) in
  let ended := snd (_mark_offset_end s) in
  fst (_mark_offset_start s) = Returned tt /\
  fst (_mark_offset_end s) = Returned tt /\
  tracked (_batch_offset_ends ended) (msg_topic m) (msg_partition m) = Some (msg_offset m) /\
  tracked (_batch_offset_starts started) (msg_topic m) (msg_partition m)
  = Some (default (msg_offset m)
            (tracked (_batch_offset_starts s) (msg_topic m) (msg_partition m))) /\
  snd (_mark_offset_start started) = started /\
  (forall topic partition, (topic, partition) <> key ->
     tracked (_batch_offset_starts started) topic partition
     = tracked (_batch_offset_starts s) topic partition /\
     tracked (_batch_offset_ends ended) topic partition
     = tracked (_batch_offset_ends s) topic partition).
Proof.
  intros Hm. unfold _mark_offset_start, _mark_offset_end, held_message. run.
  rewrite Hm. simpl. rewrite Hm. simpl.
  split; [reflexivity|]. split; [reflexivity|].
  rewrite tracked_mark_end, tracked_mark_start, !decide_True by reflexivity.
  split; [reflexivity|]. split.
  { now destruct (tracked (_batch_offset_starts s) (msg_topic m) (msg_partition m)). }
  split.
  - assert (Hsame : mark_start (msg_topic m) (msg_partition m) (msg_offset m)
                      (mark_start (msg_topic m) (msg_partition m) (msg_offset m)
                         (_batch_offset_starts s))
                    = mark_start (msg_topic m) (msg_partition m) (msg_offset m)
                        (_batch_offset_starts s)).
    { set (d := mark_start _ _ _ (_batch_offset_starts s)).
      assert (Ht : is_Some (tracked d (msg_topic m) (msg_partition m))).
      { unfold d. rewrite tracked_mark_start, decide_True by reflexivity.
        destruct (tracked (_batch_offset_starts s) _ _); eauto. }
      destruct Ht as [o Ht]. unfold tracked in Ht. unfold mark_start at 1.
      destruct (d !! msg_topic m) as [ps|] eqn:Hd; [|discriminate]. simpl in Ht.
      simpl. rewrite Hd. simpl. now rewrite Ht. }
    now rewrite Hsame.
  - intros topic partition Hne.
    rewrite tracked_mark_start, tracked_mark_end, !decide_False by congruence.
    split; [|reflexivity]. now destruct (tracked (_batch_offset_starts s) topic partition).
Qed.

(** *** Failures of the poll *)

(** X17. When the two tests pass and the client's poll raises, the consume
    call raises what the poll raised; the held message, the offsets, the
    count and the kept messages are as before the call. *)
Theorem consume_poll_failure timeout consume_multiplier s s1 text :
  _keep_consuming consume_multiplier s = (Returned true, s1) ->
  next_poll (_consumer s) = Failure text ->
  let after := TransactionalConsumer_consume timeout consume_multiplier s in
  fst after = Raised (ExternalError text) /\
  message (snd after) = message s /\
  _batch_offset_starts (snd after) = _batch_offset_starts s /\
  _batch_offset_ends (snd after) = _batch_offset_ends s /\
  _consume_message_count (snd after) = _consume_message_count s /\
  _messages (snd after) = _messages s.
Proof.
  intros Hk Hp.
  destruct (consume_shape timeout consume_multiplier s) as (k & s1' & Hk' & Hw & Hrun).
  rewrite Hk in Hk'. inversion Hk'; subst k s1'. clear Hk'.
  simpl. rewrite Hrun, Consumer_consume_shape.
  assert (Hc : _consumer s1 = _consumer s) by (rewrite Hw; reflexivity).
  rewrite Hc, Hp. simpl. rewrite Hw. repeat split.
Qed.

(** *** A message that is returned *)

(** X18. A consume call that returns gives back the message the poll
    delivered.  That message is then the held one, its offset is the
    tracked end offset of its (topic, partition) and, unless a start was
    tracked already, the start offset too; the count has gone up by one;
    and other partitions' offsets are untouched. *)
Theorem consume_returns_polled_message timeout consume_multiplier s r s' :
  TransactionalConsumer_consume timeout consume_multiplier s = (Returned r, s') ->
  exists m,
    next_poll (_consumer s) = Delivered m /\
    r = Some m /\
    message s' = Some m /\
    tracked (_batch_offset_ends s') (msg_topic m) (msg_partition m) = Some (msg_offset m) /\
    tracked (_batch_offset_starts s') (msg_topic m) (msg_partition m)
    = Some (default (msg_offset m)
              (tracked (_batch_offset_starts s) (msg_topic m) (msg_partition m))) /\
    _consume_message_count s' = _consume_message_count s + 1 /\
    pending_commits s' = negb (_consume_message_count s + 1 =? 0) /\
    (forall topic partition, (topic, partition) <> (msg_topic m, msg_partition m) ->
       tracked (_batch_offset_starts s') topic partition
       = tracked (_batch_offset_starts s) topic partition /\
       tracked (_batch_offset_ends s') topic partition
       = tracked (_batch_offset_ends s) topic partition).
Proof.
  intros H. apply consume_returned in H as (m & Hp & -> & Hn).
  destruct Hn as (Hm & Hs & He & Hc & _).
  exists m. split; [assumption|]. split; [reflexivity|]. split; [assumption|].
  rewrite Hs, He, tracked_mark_end, tracked_mark_start, !decide_True by reflexivity.
  split; [reflexivity|]. split.
  { now destruct (tracked (_batch_offset_starts s) (msg_topic m) (msg_partition m)). }
  split; [assumption|]. split; [unfold pending_commits; now rewrite Hc|].
  intros topic partition Hne.
  rewrite tracked_mark_start, tracked_mark_end, !decide_False by congruence.
  split; [|reflexivity]. now destruct (tracked (_batch_offset_starts s) topic partition).
Qed.

End Engine.

(** ** The properties on runs of the examples *)

Import Scenario.

(** The consumer [__init__] makes is the one the examples start from. *)
Lemma init_makes_consumer :
  TransactionalConsumer___init__ (client [] []) (ticking 100) ["T"] false
    (Some {| Settings.poll_timeout_secs := 5;
             Settings.batch_consume_max_time_secs := None;
             Settings.batch_consume_max_count := None;
             Settings.batch_consume_store_messages := None |})
    true (Some (inject_Z 10)) (Some 5) None
  = Returned (consumer (client [] []) (Some (inject_Z 10)) (Some 5) false (ticking 100)).
Proof. reflexivity. Qed.

(** *** C1 *)

(** After one message of offset 41 was consumed under a time bound of 10
    seconds, [commit] returns and has sent offset 42; the start of the
    time window, stamped at 100 by the consume call, is still 100. *)
Lemma commit_leaves_window_start :
  let consumed :=
    TransactionalConsumer_consume guid_of_headers None 1
      (consumer (client [Delivered (record "T" 0 41)] []) (Some (inject_Z 10)) None false
         (ticking 100)) in
  let committed := TransactionalConsumer_commit (producer false, snd consumed) in
  fst consumed = Returned (Some (record "T" 0 41)) /\
  tracked (_batch_offset_ends (snd consumed)) "T" 0 = Some 41 /\
  fst committed = Returned tt /\
  transaction_calls (fst (snd committed))
  = [BeginTransaction; SendOffsetsToTransaction [("T", 0, 42)] "group"; CommitTransaction 30] /\
  _batch_time_elapse_start (snd (snd committed)) = Some (inject_Z 100) /\
  _batch_time_elapse_start (snd (snd committed)) <> None.
Proof. vm_compute. repeat split; discriminate. Qed.

Lemma commit_attaches_offsets_witness :
  let s := tracking (client [] []) {["T" := {[0 := 40]}]} {["T" := {[0 := 41]}]} 2
             (Some (record "T" 0 41)) in
  let committed := TransactionalConsumer_commit (producer false, s) in
  transaction_calls (fst (snd committed))
  = [BeginTransaction; SendOffsetsToTransaction [("T", 0, 42)] "group"; CommitTransaction 30] /\
  pending_commits (snd (snd committed)) = false.
Proof.
  intros s committed.
  assert (Htracked : exists topic partition offset,
             tracked (_batch_offset_ends s) topic partition = Some offset).
  { exists "T", 0, 41. reflexivity. }
  assert (Hrun : TransactionalConsumer_commit (producer false, s)
                 = (Returned tt, (fst (snd committed), snd (snd committed)))).
  { vm_compute. reflexivity. }
  pose proof (commit_attaches_offsets _ _ _ _ Htracked Hrun) as H.
  split; [|apply H].
  destruct H as [H _]. rewrite H. vm_compute. reflexivity.
Defined.

(** *** C2 *)

Lemma consume_empty_poll_witness :
  fst (TransactionalConsumer_consume guid_of_headers None 1
         (tracking (client [] []) {["T" := {[0 := 40]}]} {["T" := {[0 := 41]}]} 2 None))
  = Raised FinishedTransactionBatch /\
  fst (TransactionalConsumer_consume guid_of_headers None 1
         (tracking (client [Nothing] []) ∅ ∅ 0 None))
  = Raised NoMessageError.
Proof.
  split.
  - refine (proj1 (consume_empty_poll guid_of_headers None 1
                     (tracking (client [] []) {["T" := {[0 := 40]}]} {["T" := {[0 := 41]}]} 2 None)
                     (tracking (client [] []) {["T" := {[0 := 40]}]} {["T" := {[0 := 41]}]} 2 None)
                     _ _) _).
    + reflexivity.
    + reflexivity.
    + exists "T", 0, 41. reflexivity.
  - refine (proj2 (consume_empty_poll guid_of_headers None 1
                     (tracking (client [Nothing] []) ∅ ∅ 0 None)
                     (tracking (client [Nothing] []) ∅ ∅ 0 None)
                     _ _) _); reflexivity.
Defined.

(** *** C3 *)

(** A bound of 0 on the count is no bound: the call polls and returns the
    message, although the count, 0, has reached 0 times the multiplier.
    And under a bound of 5 the sixth consume call of a batch polls and
    returns a message when the first call found nothing to consume. *)
Lemma zero_count_bound_polls :
  let s := consumer (client [Delivered (record "T" 0 41)] []) None (Some 0) false (ticking 100) in
  let consumed := TransactionalConsumer_consume guid_of_headers None 1 s in
  let run := fun s => snd (TransactionalConsumer_consume guid_of_headers None 1 s) in
  let batch := consumer
                 (client [Nothing; Delivered (record "T" 0 1); Delivered (record "T" 0 2);
                          Delivered (record "T" 0 3); Delivered (record "T" 0 4);
                          Delivered (record "T" 0 5)] [])
                 None (Some 5) false (ticking 100) in
  let sixth :=
    TransactionalConsumer_consume guid_of_headers None 1 (run (run (run (run (run batch))))) in
  (_consume_max_count s = Some 0 /\
   0 * 1 <= _consume_message_count s /\
   fst consumed = Returned (Some (record "T" 0 41)) /\
   calls (_consumer (snd consumed)) = [Poll 5]) /\
  (fst (TransactionalConsumer_consume guid_of_headers None 1 batch) = Raised NoMessageError /\
   fst sixth = Returned (Some (record "T" 0 5)) /\
   calls (_consumer (snd sixth)) = [Poll 5; Poll 5; Poll 5; Poll 5; Poll 5; Poll 5]).
Proof. vm_compute. repeat split; discriminate. Qed.

(** five messages for one partition, offsets 1 to 5, and a sixth *)
Lemma consume_count_exhausted_witness :
  let s := consumer
             (client [Delivered (record "T" 0 1); Delivered (record "T" 0 2);
                      Delivered (record "T" 0 3); Delivered (record "T" 0 4);
                      Delivered (record "T" 0 5); Delivered (record "T" 0 6)] [])
             None (Some 5) false (ticking 100) in
  let run := fun s => snd (TransactionalConsumer_consume guid_of_headers None 1 s) in
  let s5 := run (run (run (run (run s)))) in
  TransactionalConsumer_consume guid_of_headers None 1 s5 = (Raised FinishedTransactionBatch, s5) /\
  calls (_consumer s5) = [Poll 5; Poll 5; Poll 5; Poll 5; Poll 5].
Proof.
  intros s run s5. split; [|vm_compute; reflexivity].
  apply (proj2 (consume_count_exhausted guid_of_headers) None s s5).
  - reflexivity.
  - reflexivity.
  - assert (H1 : TransactionalConsumer_consume guid_of_headers None 1 s
                 = (Returned (Some (record "T" 0 1)), run s))
      by (vm_compute; reflexivity).
    assert (H2 : TransactionalConsumer_consume guid_of_headers None 1 (run s)
                 = (Returned (Some (record "T" 0 2)), run (run s)))
      by (vm_compute; reflexivity).
    assert (H3 : TransactionalConsumer_consume guid_of_headers None 1 (run (run s))
                 = (Returned (Some (record "T" 0 3)), run (run (run s))))
      by (vm_compute; reflexivity).
    assert (H4 : TransactionalConsumer_consume guid_of_headers None 1 (run (run (run s)))
                 = (Returned (Some (record "T" 0 4)), run (run (run (run s)))))
      by (vm_compute; reflexivity).
    assert (H5 : TransactionalConsumer_consume guid_of_headers None 1 (run (run (run (run s))))
                 = (Returned (Some (record "T" 0 5)), s5))
      by (vm_compute; reflexivity).
    exact (in_a_row_S _ _ _ _ _ _ _ _
             (in_a_row_S _ _ _ _ _ _ _ _
                (in_a_row_S _ _ _ _ _ _ _ _
                   (in_a_row_S _ _ _ _ _ _ _ _
                      (in_a_row_S _ _ _ _ _ _ _ _ (in_a_row_O _ _ s) H1) H2) H3) H4) H5).
Defined.

(** *** C4 *)

(** Offset 5 and then offset 3 of one partition, consumed in one batch:
    the start offset is 5 and the end offset 3. *)
Lemma end_offset_below_start :
  let s := consumer (client [Delivered (record "T" 0 5); Delivered (record "T" 0 3)] [])
             None None false (ticking 100) in
  let first := TransactionalConsumer_consume guid_of_headers None 1 s in
  let second := TransactionalConsumer_consume guid_of_headers None 1 (snd first) in
  fst first = Returned (Some (record "T" 0 5)) /\
  fst second = Returned (Some (record "T" 0 3)) /\
  tracked (_batch_offset_ends (snd first)) "T" 0 = Some 5 /\
  tracked (_batch_offset_starts (snd second)) "T" 0 = Some 5 /\
  tracked (_batch_offset_ends (snd second)) "T" 0 = Some 3.
Proof. vm_compute. repeat split. Qed.

Lemma batch_offsets_tracked_witness :
  let s := consumer (client [Delivered (record "T" 0 5); Nothing; Delivered (record "T" 0 6)] [])
             None None false (ticking 100) in
  let run := fun s => snd (TransactionalConsumer_consume guid_of_headers None 1 s) in
  tracked (_batch_offset_starts (run s)) "T" 0 = Some 5 /\
  tracked (_batch_offset_ends (run s)) "T" 0 = Some 5 /\
  tracked (_batch_offset_starts (run (run (run s)))) "T" 0 = Some 5 /\
  5 <= 6.
Proof.
  intros s run.
  assert (E1 : TransactionalConsumer_consume guid_of_headers None 1 s
               = (Returned (Some (record "T" 0 5)), run s))
    by (vm_compute; reflexivity).
  assert (E2 : TransactionalConsumer_consume guid_of_headers None 1 (run s)
               = (Raised FinishedTransactionBatch, run (run s)))
    by (vm_compute; reflexivity).
  assert (E3 : TransactionalConsumer_consume guid_of_headers None 1 (run (run s))
               = (Returned (Some (record "T" 0 6)), run (run (run s))))
    by (vm_compute; reflexivity).
  assert (H1 : batch_calls guid_of_headers s ([] ++ [record "T" 0 5]) (run s)).
  { exact (batch_returned _ _ _ _ _ _ _ _ (batch_nil _ s) E1). }
  assert (H2 : batch_calls guid_of_headers (run s) ([] ++ [record "T" 0 6]) (run (run (run s)))).
  { exact (batch_returned _ _ _ _ _ _ _ _
             (batch_raised _ _ _ _ _ _ _ _ (batch_nil _ (run s)) E2) E3). }
  destruct (batch_offsets_tracked guid_of_headers s _ (run s) _ (run (run (run s))) "T" 0
              eq_refl eq_refl H1 H2) as (Hst & Hen & Hkeep & Hsorted).
  split; [exact Hst|]. split; [exact Hen|]. split; [apply Hkeep; exact Hst|].
  assert (Hs : StronglySorted Z.le
                 (offsets_seen "T" 0 (([] ++ [record "T" 0 5]) ++ [] ++ [record "T" 0 6]))).
  { change (StronglySorted Z.le [5; 6]). repeat constructor; lia. }
  destruct (Hsorted Hs) as [_ Hmono].
  apply (Hmono 5 6); [exact Hen|]. vm_compute. reflexivity.
Defined.

(** *** C5 *)

(** C5. The spec's own example of a rollback: start offsets 10 for
    partition 0 and 7 for partition 1 of topic T are tracked, and the
    client lists partition 0 only.  [rollback_consumption] asks the client
    for its assignment and then raises the AttributeError of
    [self.consumer]: there is no seek, and the batch is not cleared. *)
Theorem rollback_consumption_attribute_error :
  let s := tracking (client [] [("T", 0)])
             {["T" := {[0 := 10; 1 := 7]}]} {["T" := {[0 := 12; 1 := 9]}]} 6 None in
  let rolled := rollback_consumption s in
  fst rolled
  = Raised (AttributeError "'DeserializingConsumer' object has no attribute 'consumer'") /\
  calls (_consumer (snd rolled)) = [Assignment] /\
  tracked (_batch_offset_starts (snd rolled)) "T" 0 = Some 10 /\
  tracked (_batch_offset_starts (snd rolled)) "T" 1 = Some 7 /\
  _consume_message_count (snd rolled) = 6.
Proof. vm_compute. repeat split. Qed.

(** *** C6 *)

(** The start of the window is stamped by a consume call, before it
    polls: a first call at 200 that finds nothing to consume stamps 200,
    and the call at 215 raises FinishedTransactionBatch under a bound of 10
    seconds although no message was consumed since.  A start of 0 counts
    as no start: with the window stamped at reading 0 and the next call at
    reading 11, that call stamps 11 and returns a message.  And a bound of
    0 seconds is no bound. *)
Lemma window_runs_from_the_call :
  let idle :=
    TransactionalConsumer_consume guid_of_headers None 1
      (consumer (client [Nothing; Delivered (record "T" 0 1)] []) (Some (inject_Z 10)) None
         false (stepping 200 215)) in
  let late := TransactionalConsumer_consume guid_of_headers None 1 (snd idle) in
  let first :=
    TransactionalConsumer_consume guid_of_headers None 1
      (consumer (client [Delivered (record "T" 0 1); Delivered (record "T" 0 2)] [])
         (Some (inject_Z 10)) None false (stepping 0 11)) in
  let second := TransactionalConsumer_consume guid_of_headers None 1 (snd first) in
  let unbounded :=
    TransactionalConsumer_consume guid_of_headers None 1
      (with_start_time (Some (inject_Z 5))
         (consumer (client [Delivered (record "T" 0 1)] []) (Some (inject_Z 0)) None false
            (ticking 100))) in
  (fst idle = Raised NoMessageError /\
   _batch_time_elapse_start (snd idle) = Some (inject_Z 200) /\
   _consume_message_count (snd idle) = 0 /\
   fst late = Raised FinishedTransactionBatch /\
   _consume_message_count (snd late) = 0 /\
   calls (_consumer (snd late)) = [Poll 5]) /\
  (fst first = Returned (Some (record "T" 0 1)) /\
   _batch_time_elapse_start (snd first) = Some (inject_Z 0) /\
   wall_clock (snd first) (clock_reads (snd first)) = inject_Z 11 /\
   fst second = Returned (Some (record "T" 0 2)) /\
   _batch_time_elapse_start (snd second) = Some (inject_Z 11)) /\
  (fst unbounded = Returned (Some (record "T" 0 1)) /\
   _batch_time_elapse_start (snd unbounded) = Some (inject_Z 5)).
Proof. vm_compute. repeat split. Qed.

Lemma consume_time_exhausted_witness :
  let s := with_clock_reads 11
             (with_start_time (Some (inject_Z 100))
                (consumer (client [Delivered (record "T" 0 2)] []) (Some (inject_Z 10)) None
                   false (ticking 100))) in
  let consumed := TransactionalConsumer_consume guid_of_headers None 1 s in
  fst consumed = Raised FinishedTransactionBatch /\
  _batch_time_elapse_start (snd consumed) = None /\
  calls (_consumer (snd consumed)) = [].
Proof.
  intros s consumed.
  assert (H : TransactionalConsumer_consume guid_of_headers None 1 s
              = (Raised FinishedTransactionBatch,
                 with_start_time None (with_clock_reads (S (clock_reads s)) s))).
  { apply (consume_time_exhausted guid_of_headers None 1 s (inject_Z 10) (inject_Z 100)).
    - reflexivity.
    - intros H. vm_compute in H. discriminate.
    - reflexivity.
    - intros H. vm_compute in H. discriminate.
    - reflexivity.
    - vm_compute. discriminate. }
  unfold consumed. rewrite H. repeat split.
Defined.

(** *** C7 *)

(** A message without headers that carries a transport error: reading its
    guid fails on an attribute, the error has no signature, and the
    failure is dropped; the consume call returns the message and counts
    it.  And a message whose guid can be read is returned although its
    error has the signature. *)
Lemma attribute_error_is_dropped :
  let s := with_message (Some broken) (tracking (client [] []) ∅ ∅ 0 None) in
  let consumed :=
    TransactionalConsumer_consume guid_of_headers None 1
      (consumer (client [Delivered broken] []) None None false (ticking 100)) in
  let consumed' :=
    TransactionalConsumer_consume guid_of_headers None 1
      (consumer (client [Delivered flagged] []) None None false (ticking 100)) in
  guid_of_headers broken = AttributeFault "'NoneType' object has no attribute 'decode'" /\
  Py.contains headers_signature (str_error broken) = false /\
  Consumer__handle_consumed_message guid_of_headers s = (Returned tt, s) /\
  fst consumed = Returned (Some broken) /\
  _consume_message_count (snd consumed) = 1 /\
  Py.contains headers_signature (str_error flagged) = true /\
  fst consumed' = Returned (Some flagged).
Proof. vm_compute. repeat split. Qed.

Lemma handle_consumed_message_raises_witness :
  let s := with_message (Some corrupt) (tracking (client [] []) ∅ ∅ 0 None) in
  exists text, fst (Consumer__handle_consumed_message guid_of_headers s)
               = Raised (ConsumeMessageError text).
Proof.
  intros s.
  apply (proj1 (handle_consumed_message_raises guid_of_headers s corrupt eq_refl)).
  split; [eexists|]; reflexivity.
Defined.

(** *** C8 *)

Lemma commit_nothing_tracked_witness :
  let s := tracking (client [] []) ∅ ∅ 0 (Some (record "T" 0 41)) in
  let after := TransactionalConsumer_commit (producer false, s) in
  fst after = Returned tt /\
  transaction_calls (fst (snd after)) = [] /\
  message (snd (snd after)) = None /\
  TransactionalConsumer_commit (snd after) = after.
Proof.
  intros s after.
  destruct (commit_nothing_tracked (producer false) s eq_refl eq_refl)
    as (Hr & Hp & _ & Hm & _ & _ & _ & _ & _ & Hagain).
  fold after in Hr, Hp, Hm, Hagain.
  split; [exact Hr|]. split; [now rewrite Hp|]. split; [exact Hm|].
  destruct after as [r [p' s']]. simpl in *. subst. exact Hagain.
Defined.

(** *** C9 *)

Lemma consume_signal_keeps_batch_witness :
  let s := tracking (client [Nothing] []) {["T" := {[0 := 40]}]} {["T" := {[0 := 41]}]} 2
             (Some (record "T" 0 41)) in
  let consumed := TransactionalConsumer_consume guid_of_headers None 1 s in
  fst consumed = Raised FinishedTransactionBatch /\
  _batch_offset_ends (snd consumed) = _batch_offset_ends s /\
  message (snd consumed) = Some (record "T" 0 41).
Proof.
  intros s consumed.
  assert (H : TransactionalConsumer_consume guid_of_headers None 1 s
              = (Raised FinishedTransactionBatch, snd consumed)).
  { vm_compute. reflexivity. }
  destruct (consume_signal_keeps_batch guid_of_headers None 1 s _ _ H
              (or_intror eq_refl)) as (_ & He & _ & _ & Hm).
  split; [vm_compute; reflexivity|]. split; [exact He|exact Hm].
Defined.

(** *** C10 *)

Lemma consume_corrupt_message_witness :
  let s := tracking (client [Delivered corrupt] []) {["T" := {[0 := 40]}]}
             {["T" := {[0 := 41]}]} 2 (Some (record "T" 0 41)) in
  let consumed := TransactionalConsumer_consume guid_of_headers None 1 s in
  exists m, next_poll (_consumer s) = Delivered m /\
            message (snd consumed) = Some m /\
            _consume_message_count (snd consumed) = 2 /\
            Consumer_key (snd consumed) = (Returned (msg_key m), snd consumed).
Proof.
  intros s consumed.
  assert (H : TransactionalConsumer_consume guid_of_headers None 1 s
              = (Raised (ConsumeMessageError
                   "Headers were inaccessible on the message. Potentially a corrupt message?"),
                 snd consumed)).
  { vm_compute. reflexivity. }
  destruct (consume_corrupt_message guid_of_headers headers_as_they_are None 1 s _ _ H)
    as (m & Hp & Hm & _ & _ & Hc & _ & _ & Hk & _).
  exists m. repeat split; assumption.
Defined.

(** *** Further properties, on runs of the examples *)

Lemma consume_keeps_stamped_start_witness :
  let s := with_start_time (Some (inject_Z 100))
             (consumer (client [Delivered (record "T" 0 2)] []) (Some (inject_Z 10)) None
                false (ticking 100)) in
  _batch_time_elapse_start (snd (TransactionalConsumer_consume guid_of_headers None 1 s))
  = Some (inject_Z 100).
Proof.
  intros s.
  destruct (consume_keeps_stamped_start guid_of_headers None 1 s (inject_Z 100) eq_refl)
    as [H|[H _]].
  - intros H. vm_compute in H. discriminate.
  - exact H.
  - vm_compute in H. discriminate.
Defined.

Lemma unbounded_batch_finishes_on_empty_poll_witness :
  let s := tracking (client [Nothing] []) {["T" := {[0 := 40]}]} {["T" := {[0 := 41]}]} 2
             (Some (record "T" 0 41)) in
  fst (TransactionalConsumer_consume guid_of_headers None 1 s) = Raised FinishedTransactionBatch.
Proof.
  intros s.
  apply (proj1 (unbounded_batch_finishes_on_empty_poll guid_of_headers None 1 s
                  eq_refl eq_refl)).
  split; [reflexivity|]. intros H. vm_compute in H. discriminate.
Defined.

Lemma commit_raised_keeps_batch_witness :
  let s := tracking (client [] []) {["T" := {[0 := 40]}]} {["T" := {[0 := 41]}]} 2
             (Some (record "T" 0 41)) in
  let failed := TransactionalConsumer_commit (refusing_commit false, s) in
  fst failed = Raised (ExternalError "KafkaException") /\
  _batch_offset_ends (snd (snd failed)) = _batch_offset_ends s /\
  message (snd (snd failed)) = Some (record "T" 0 41).
Proof.
  intros s failed.
  assert (H : TransactionalConsumer_commit (refusing_commit false, s)
              = (Raised (ExternalError "KafkaException"),
                 (fst (snd failed), snd (snd failed)))) by (vm_compute; reflexivity).
  destruct (commit_raised_keeps_batch _ _ _ _ _ H) as (_ & He & _ & _ & Hm & _).
  split; [vm_compute; reflexivity|]. split; [exact He|exact Hm].
Defined.

Lemma commit_open_transaction_witness :
  let s := tracking (client [] []) ∅ ∅ 0 None in
  transaction_calls (fst (snd (TransactionalConsumer_commit (producer true, s))))
  = [CommitTransaction 30].
Proof.
  intros s.
  assert (H : TransactionalConsumer_commit (producer true, s)
              = (Returned tt,
                 (fst (snd (TransactionalConsumer_commit (producer true, s))),
                  snd (snd (TransactionalConsumer_commit (producer true, s))))))
    by (vm_compute; reflexivity).
  exact (proj1 (commit_open_transaction (producer true) s _ _ eq_refl eq_refl H)).
Defined.

Lemma accessors_after_commit_witness :
  let s := tracking (client [] []) {["T" := {[0 := 40]}]} {["T" := {[0 := 41]}]} 2
             (Some (record "T" 0 41)) in
  let s' := snd (snd (TransactionalConsumer_commit (producer false, s))) in
  fst (Consumer_key s) = Returned "key" /\
  Consumer_key s' = (Raised (AttributeError "'NoneType' object has no attribute 'key'"), s').
Proof.
  intros s s'. split; [reflexivity|].
  assert (H : TransactionalConsumer_commit (producer false, s)
              = (Returned tt,
                 (fst (snd (TransactionalConsumer_commit (producer false, s))), s')))
    by (vm_compute; reflexivity).
  exact (proj1 (accessors_after_commit headers_as_they_are _ _ _ _ H)).
Defined.

Lemma batch_tracks_same_partitions_witness :
  let s := consumer (client [Delivered (record "T" 0 5); Delivered (record "U" 1 9)] [])
             None None true (ticking 100) in
  let run := fun s => snd (TransactionalConsumer_consume guid_of_headers None 1 s) in
  is_Some (tracked (_batch_offset_starts (run (run s))) "U" 1) <->
  is_Some (tracked (_batch_offset_ends (run (run s))) "U" 1).
Proof.
  intros s run.
  assert (E1 : TransactionalConsumer_consume guid_of_headers None 1 s
               = (Returned (Some (record "T" 0 5)), run s))
    by (vm_compute; reflexivity).
  assert (E2 : TransactionalConsumer_consume guid_of_headers None 1 (run s)
               = (Returned (Some (record "U" 1 9)), run (run s)))
    by (vm_compute; reflexivity).
  pose proof (batch_returned _ _ _ _ _ _ _ _
                (batch_returned _ _ _ _ _ _ _ _ (batch_nil _ s) E1) E2) as Hrun.
  exact (proj1 (batch_tracks_same_partitions guid_of_headers s _ (run (run s)) "U" 1
                  eq_refl eq_refl Hrun)).
Defined.

Lemma pending_commits_iff_consumed_witness :
  let s := consumer (client [Delivered (record "T" 0 5); Delivered (record "U" 1 9)] [])
             None None true (ticking 100) in
  let run := fun s => snd (TransactionalConsumer_consume guid_of_headers None 1 s) in
  _consume_message_count (run (run s)) = 2 /\
  pending_commits (run (run s)) = true.
Proof.
  intros s run.
  assert (E1 : TransactionalConsumer_consume guid_of_headers None 1 s
               = (Returned (Some (record "T" 0 5)), run s))
    by (vm_compute; reflexivity).
  assert (E2 : TransactionalConsumer_consume guid_of_headers None 1 (run s)
               = (Returned (Some (record "U" 1 9)), run (run s)))
    by (vm_compute; reflexivity).
  pose proof (batch_returned _ _ _ _ _ _ _ _
                (batch_returned _ _ _ _ _ _ _ _ (batch_nil _ s) E1) E2) as Hrun.
  destruct (pending_commits_iff_consumed guid_of_headers s _ (run (run s))
              eq_refl eq_refl eq_refl Hrun) as (Hc & Hp & _).
  split; [exact Hc|]. apply Hp. discriminate.
Defined.

Lemma batch_keeps_messages_witness :
  let s := consumer (client [Delivered (record "T" 0 5); Delivered (record "U" 1 9)] [])
             None None true (ticking 100) in
  let run := fun s => snd (TransactionalConsumer_consume guid_of_headers None 1 s) in
  fst (TransactionalConsumer_messages (run (run s)))
  = Returned [Some (record "T" 0 5); Some (record "U" 1 9)].
Proof.
  intros s run.
  assert (E1 : TransactionalConsumer_consume guid_of_headers None 1 s
               = (Returned (Some (record "T" 0 5)), run s))
    by (vm_compute; reflexivity).
  assert (E2 : TransactionalConsumer_consume guid_of_headers None 1 (run s)
               = (Returned (Some (record "U" 1 9)), run (run s)))
    by (vm_compute; reflexivity).
  pose proof (batch_returned _ _ _ _ _ _ _ _
                (batch_returned _ _ _ _ _ _ _ _ (batch_nil _ s) E1) E2) as Hrun.
  destruct (batch_keeps_messages guid_of_headers s _ (run (run s)) eq_refl Hrun) as [Hkept _].
  now rewrite (Hkept eq_refl).
Defined.

Lemma batch_count_bounded_witness :
  let s := consumer
             (client [Delivered (record "T" 0 5); Delivered (record "U" 1 9);
                      Delivered (record "T" 0 6)] [])
             None (Some 2) false (ticking 100) in
  let run := fun s => snd (TransactionalConsumer_consume guid_of_headers None 1 s) in
  Z.of_nat (length [record "T" 0 5; record "U" 1 9]) <= Z.max 0 (2 * 1) /\
  fst (TransactionalConsumer_consume guid_of_headers None 1 (run (run s)))
  = Raised FinishedTransactionBatch.
Proof.
  intros s run. split; [|vm_compute; reflexivity].
  assert (E1 : TransactionalConsumer_consume guid_of_headers None 1 s
               = (Returned (Some (record "T" 0 5)), run s))
    by (vm_compute; reflexivity).
  assert (E2 : TransactionalConsumer_consume guid_of_headers None 1 (run s)
               = (Returned (Some (record "U" 1 9)), run (run s)))
    by (vm_compute; reflexivity).
  pose proof (batch_at_call _ _ _ _ _ _ _ _
                (batch_at_call _ _ _ _ _ _ _ _ (batch_at_nil _ 1 s) E1) E2) as Hrun.
  exact (batch_count_bounded guid_of_headers 1 s _ (run (run s)) 2 eq_refl
           ltac:(discriminate) eq_refl Hrun).
Defined.

Lemma Consumer_consume_then_commit_witness :
  let s := consumer (client [Delivered (record "T" 0 5)] []) None None false (ticking 100) in
  let consumed := Consumer_consume (Consumer__handle_consumed_message guid_of_headers) None s in
  exists m,
    fst consumed = Returned (Some m) /\
    calls (_consumer (snd (Consumer_commit (snd consumed)))) = [Poll 5; StoreOffsets m].
Proof.
  intros s consumed.
  assert (H : Consumer_consume (Consumer__handle_consumed_message guid_of_headers) None s
              = (Returned (Some (record "T" 0 5)), snd consumed))
    by (vm_compute; reflexivity).
  destruct (Consumer_consume_then_commit guid_of_headers None s _ _ H)
    as (m & _ & Hr & _ & Hcalls & _).
  exists m. split; [|exact Hcalls].
  inversion Hr; subst m. vm_compute. reflexivity.
Defined.

Lemma handle_consumed_message_metrics_witness :
  let s := with_message (Some (record "T" 0 5))
             (consumer (client [] []) None None false (ticking 100)) in
  metrics_manager (snd (Consumer__handle_consumed_message guid_of_headers s))
  = Some [SetSecondsBehind 1; IncMessagesConsumed 1 "T"].
Proof.
  intros s.
  rewrite (proj1 (handle_consumed_message_metrics guid_of_headers s (record "T" 0 5) []
                    eq_refl eq_refl) "0001" eq_refl).
  vm_compute. reflexivity.
Defined.

Lemma marks_track_the_held_message_witness :
  let s := tracking (client [] []) {["T" := {[0 := 40]}]} {["T" := {[0 := 41]}]} 2
             (Some (record "T" 0 42)) in
  tracked (_batch_offset_ends (snd (_mark_offset_end s))) "T" 0 = Some 42 /\
  tracked (_batch_offset_starts (snd (_mark_offset_start s))) "T" 0 = Some 40.
Proof.
  intros s.
  destruct (marks_track_the_held_message s (record "T" 0 42) eq_refl)
    as (_ & _ & He & Hs & _).
  split; [exact He|exact Hs].
Defined.

Lemma consume_poll_failure_witness :
  let s := tracking (client [Failure "KafkaException"] []) {["T" := {[0 := 40]}]}
             {["T" := {[0 := 41]}]} 2 (Some (record "T" 0 41)) in
  let after := TransactionalConsumer_consume guid_of_headers None 1 s in
  fst after = Raised (ExternalError "KafkaException") /\
  message (snd after) = Some (record "T" 0 41).
Proof.
  intros s after.
  destruct (consume_poll_failure guid_of_headers None 1 s s "KafkaException"
              eq_refl eq_refl) as (Hr & Hm & _).
  split; [exact Hr|exact Hm].
Defined.

Lemma consume_returns_polled_message_witness :
  let s := tracking (client [Delivered (record "T" 0 42)] []) {["T" := {[0 := 40]}]}
             {["T" := {[0 := 41]}]} 2 (Some (record "T" 0 41)) in
  let after := TransactionalConsumer_consume guid_of_headers None 1 s in
  exists m, fst after = Returned (Some m) /\
            _consume_message_count (snd after) = 3 /\
            tracked (_batch_offset_ends (snd after)) (msg_topic m) (msg_partition m)
            = Some (msg_offset m).
Proof.
  intros s after.
  assert (H : TransactionalConsumer_consume guid_of_headers None 1 s
              = (Returned (Some (record "T" 0 42)), snd after))
    by (vm_compute; reflexivity).
  destruct (consume_returns_polled_message guid_of_headers None 1 s _ _ H)
    as (m & _ & Hr & _ & He & _ & Hc & _).
  exists m. split; [|split; [exact Hc|exact He]].
  inversion Hr; subst m. vm_compute. reflexivity.
Defined.
